(** * Health-check aggregation of the OmniBioAI control center

    A shallow embedding of the check-aggregation engine:

    - [deploy/control-center/backend/src/control_center]: the probes
      [check_http], [check_tcp], [run_disk_checks], the dispatcher
      [run_all_checks] and the status reduction of [summary];
    - [app/main.py]: the asynchronous dispatcher [_run_checks] with its
      batch deadline.

    Python exceptions are values of an error monad, the performance counter
    and the list of I/O calls are threaded as state, and whatever the
    network and the file system answer is read from a [World].

    The configuration is taken as the settings loader hands it over: in an
    entry each key is absent or holds a value of its kind (a string for
    [type], [url], [host] and [path], an integer for [port], a float for
    [timeout_s] and [warn_pct_free_below]).  Floats are IEEE 754 binary64
    values, computed with [SpecFloat]. *)

From Stdlib Require Import ZArith NArith String Ascii List Bool Lia.
From Stdlib Require Import Permutation DecimalString DecimalZ DecimalPos.
From Stdlib Require Import Floats.SpecFloat.
Import ListNotations.

Local Open Scope string_scope.
Local Open Scope Z_scope.

(** ** Python values used by the source *)

Module Py.

(** A [str] is the string of its code points; the model covers the code
    points below 256, one per character. *)

Definition code (c : ascii) : N := N_of_ascii c.

(** [str(n)] and the [{n}] of an f-string, for an [int]. *)
Definition str_of_int (n : Z) : string :=
  NilZero.string_of_int (Z.to_int n).

(** [int(s)] on a decimal numeral with an optional minus sign, which is
    what [str_of_int] writes.  Python's [int] also reads a plus sign,
    surrounding blanks and underscores between digits; the model raises
    on those. *)
Definition int_of_str (s : string) : option Z :=
  option_map Z.of_int (NilZero.int_of_string s).

(** [str(x)] for an optional string: [None] prints as [None]. *)
Definition str_of_opt (x : option string) : string :=
  match x with Some s => s | None => "None" end.

Definition str_of_opt_int (x : option Z) : string :=
  match x with Some n => str_of_int n | None => "None" end.

(** Truth value of [x] for a string or [None]: [not x] holds for [None]
    and for the empty string. *)
Definition truthy (x : option string) : bool :=
  match x with
  | None => false
  | Some EmptyString => false
  | Some _ => true
  end.

(** [x or d] for an optional string. *)
Definition or_else (x : option string) (d : string) : string :=
  match x with
  | Some (String c s) => String c s
  | _ => d
  end.

(** [str.lower]: below 256 the cased capitals are A-Z and the Latin-1
    capitals 0xC0-0xDE without the multiplication sign 0xD7; each is
    32 below its small letter. *)
Definition lower_char (c : ascii) : ascii :=
  let n := code c in
  if ((65 <=? n) && (n <=? 90))%N
     || ((192 <=? n) && (n <=? 222) && negb (n =? 215))%N
  then ascii_of_N (n + 32)
  else c.

Fixpoint lower (s : string) : string :=
  match s with
  | EmptyString => EmptyString
  | String c s' => String (lower_char c) (lower s')
  end.

Fixpoint mem_char (c : ascii) (s : string) : bool :=
  match s with
  | EmptyString => false
  | String d s' => Ascii.eqb c d || mem_char c s'
  end.

Definition dquote : ascii := ascii_of_N 34.

Definition hex_digit (n : N) : ascii :=
  if (n <? 10)%N then ascii_of_N (48 + n) else ascii_of_N (87 + n).

Definition hex2 (n : N) : string :=
  String (hex_digit (n / 16)) (String (hex_digit (n mod 16)) EmptyString).

(** Code points [str.isprintable] accepts, below 256. *)
Definition printable (c : ascii) : bool :=
  let n := code c in
  ((32 <=? n) && (n <? 127) || (161 <=? n) && negb (n =? 173))%N.

Definition repr_char (quote c : ascii) : string :=
  let n := code c in
  if Ascii.eqb c quote || Ascii.eqb c "\" then String "\" (String c EmptyString)
  else if (n =? 9)%N then "\t"
  else if (n =? 10)%N then "\n"
  else if (n =? 13)%N then "\r"
  else if printable c then String c EmptyString
  else "\x" ++ hex2 n.

Fixpoint repr_body (quote : ascii) (s : string) : string :=
  match s with
  | EmptyString => EmptyString
  | String c s' => repr_char quote c ++ repr_body quote s'
  end.

(** [repr(s)], the [{s!r}] of an f-string: single quotes, unless the
    text holds a single quote and no double quote. *)
Definition repr (s : string) : string :=
  let quote : ascii :=
    if mem_char "'" s && negb (mem_char dquote s) then dquote else "'"%char in
  String quote (repr_body quote s ++ String quote EmptyString).

(** [s.rstrip("/")]. *)
Fixpoint rstrip_slash (s : string) : string :=
  match s with
  | EmptyString => EmptyString
  | String c s' =>
      match rstrip_slash s' with
      | EmptyString => if Ascii.eqb c "/" then EmptyString else String c EmptyString
      | t => String c t
      end
  end.

(** [s.split(":")]. *)
Fixpoint split_colon (s : string) : list string :=
  match s with
  | EmptyString => [EmptyString]
  | String c s' =>
      if Ascii.eqb c ":" then EmptyString :: split_colon s'
      else match split_colon s' with
           | [] => [String c EmptyString]
           | p :: ps => String c p :: ps
           end
  end.

(** [sub in s]. *)
Fixpoint contains (sub s : string) : bool :=
  String.prefix sub s
  || match s with
     | EmptyString => false
     | String _ s' => contains sub s'
     end.

(** *** Floats: IEEE 754 binary64 *)

Definition float := spec_float.

Definition prec : Z := 53.
Definition emax : Z := 1024.

(** [float(n)] for an [int] below 2^1024 in absolute value. *)
Definition float_of_int (n : Z) : float := binary_normalize prec emax n 0 false.

Definition exact_int (n : Z) : float :=
  match n with
  | Z0 => S754_zero false
  | Zpos p => S754_finite false p 0
  | Zneg p => S754_finite true p 0
  end.

(** [a / b] for two [int]s, [b] not zero: the quotient rounded once. *)
Definition int_truediv (a b : Z) : float :=
  SFdiv prec emax (exact_int a) (exact_int b).

Definition fmul (x y : float) : float := SFmul prec emax x y.
Definition flt (x y : float) : bool := SFltb x y.
Definition fle (x y : float) : bool := SFleb x y.

Definition is_nan (x : float) : bool :=
  match x with S754_nan => true | _ => false end.

(** Nearest integer to [num / den], ties to even, for [den > 0]. *)
Definition round_half_even (num den : Z) : Z :=
  let q := num / den in
  let r := num mod den in
  match 2 * r ?= den with
  | Lt => q
  | Gt => q + 1
  | Eq => if Z.even q then q else q + 1
  end.

(** [format(x, ".1f")]. *)
Definition format_1f (x : float) : string :=
  match x with
  | S754_nan => "nan"
  | S754_infinity s => if s then "-inf" else "inf"
  | S754_zero s => if s then "-0.0" else "0.0"
  | S754_finite s m e =>
      let tenths :=
        match e with
        | Zneg p => round_half_even (Zpos m * 10) (2 ^ Zpos p)
        | _ => Zpos m * 10 * 2 ^ e
        end in
      (if s then "-" else EmptyString)
        ++ str_of_int (tenths / 10) ++ "." ++ str_of_int (tenths mod 10)
  end.

End Py.

(** ** Exceptions, the clock and the I/O log *)

Record exn := Exn { exn_class : string; exn_text : string }.

Inductive result (A : Type) : Type :=
| Ok (a : A)
| Raise (e : exn).

Arguments Ok {A} a.
Arguments Raise {A} e.

(** An I/O call, as the probes issue them. *)
Inductive io_call :=
| IoUrlopen (url : string)
| IoConnect (host : string) (port : Z)
| IoDiskUsage (path : string).

(** [clock] is the reading of [time.perf_counter()] in microseconds (the
    source reads it in seconds, as a float); [log] lists the I/O calls
    made so far, oldest first. *)
Record state := State { clock : Z; log : list io_call }.

Definition M (A : Type) : Type := state -> result A * state.

Definition ret {A} (a : A) : M A := fun s => (Ok a, s).

Definition bind {A B} (m : M A) (f : A -> M B) : M B :=
  fun s =>
    match m s with
    | (Ok a, s') => f a s'
    | (Raise e, s') => (Raise e, s')
    end.

Definition raise {A} (e : exn) : M A := fun s => (Raise e, s).

(** [try: m  except Exception as e: h e]. *)
Definition try_except {A} (m : M A) (h : exn -> M A) : M A :=
  fun s =>
    match m s with
    | (Ok a, s') => (Ok a, s')
    | (Raise e, s') => h e s'
    end.

Notation "x <- m ;; k" := (bind m (fun x => k))
  (at level 61, m at next level, right associativity).

Definition perf_counter : M Z := fun s => (Ok (clock s), s).

(** One I/O call: it is logged, [dt] microseconds pass, and it returns or
    raises what the world answered. *)
Definition io {A} (call : io_call) (dt : N) (answer : result A) : M A :=
  fun s => (answer, State (clock s + Z.of_N dt) (log s ++ [call])).

(** [int((t1 - t0) * 1000)] for two readings of the clock. *)
Definition elapsed_ms (t0 t1 : Z) : Z := Z.quot (t1 - t0) 1000.

(** ** What the environment answers *)

(** The outcome of an HTTP GET once redirections have been followed: the
    status line of the final response, or a failure of the transport
    (refused connection, name resolution, time-out, malformed URL). *)
Inductive http_reply :=
| Answered (status : Z) (reason : string)
| Unreachable (e : exn).

(** [shutil.disk_usage(path)]. *)
Record usage := Usage { total : Z; used : Z; free : Z }.

(** Each answer may depend on the moment of the call; the [N] is the time
    the call takes, in microseconds. *)
Record World := {
  http_get : Z -> string -> Py.float -> http_reply * N;
  tcp_connect : Z -> string -> Z -> option exn * N;
  statvfs : Z -> string -> result usage;
  utc_now : Z -> string
}.

(** ** The result model *)

Record CheckResult := {
  r_name : string;
  r_type : string;
  r_target : string;
  r_status : string;
  r_latency_ms : option Z;
  r_message : string
}.

(** A service entry of the configuration, as the settings hold it: each
    key is absent ([None]) or holds a value of its kind. *)
Record ServiceCfg := {
  cfg_type : option string;
  cfg_url : option string;
  cfg_timeout_s : option Py.float;
  cfg_host : option string;
  cfg_port : option Z
}.

Record DiskCfg := {
  cfg_path : option string;
  cfg_warn_pct_free_below : option Py.float
}.

(** [services] lists the items of the mapping in its order, one per name;
    [disk_checks] is [system.disk_checks]. *)
Record Settings := {
  services : list (string * ServiceCfg);
  disk_checks : list DiskCfg
}.

(** Message of an [except Exception as e] branch:
    [f"{type(e).__name__}: {e}"]. *)
Definition exn_message (e : exn) : string :=
  exn_class e ++ ": " ++ exn_text e.

(** ** checks/http.py *)

(** [urllib.request.urlopen] with the default opener, as far as the probe
    uses it.  Its [HTTPErrorProcessor] hands every final status outside
    200-299 to the error handlers, and the default handler raises
    [HTTPError], whose text is [HTTP Error <code>: <reason>]; a response
    is returned for the other statuses only.  The value returned is the
    [status] of the response. *)
Definition urlopen (w : World) (url : string) (timeout_s : Py.float) : M Z :=
  fun s =>
    let '(reply, dt) := http_get w (clock s) url timeout_s in
    io (IoUrlopen url) dt
       match reply with
       | Answered code reason =>
           if (200 <=? code) && (code <? 300) then Ok code
           else Raise (Exn "HTTPError"
                           ("HTTP Error " ++ Py.str_of_int code ++ ": " ++ reason))
       | Unreachable e => Raise e
       end
       s.

(** [float(cfg.get("timeout_s", 2))]. *)
Definition timeout_of (cfg : ServiceCfg) : Py.float :=
  match cfg_timeout_s cfg with
  | Some t => t
  | None => Py.float_of_int 2
  end.

Definition check_http (w : World) (name : string) (cfg : ServiceCfg)
  : M CheckResult :=
  let url := cfg_url cfg in
  let timeout_s := timeout_of cfg in
  if negb (Py.truthy url) then
    ret {| r_name := name; r_type := "http"; r_target := "-";
           r_status := "DOWN"; r_latency_ms := None;
           r_message := "Missing 'url' in config" |}
  else
    let url := Py.str_of_opt url in
    start <- perf_counter ;;
    try_except
      (code <- urlopen w url timeout_s ;;
       now <- perf_counter ;;
       let latency_ms := elapsed_ms start now in
       if (200 <=? code) && (code <? 400) then
         ret {| r_name := name; r_type := "http"; r_target := url;
                r_status := "UP"; r_latency_ms := Some latency_ms;
                r_message := "HTTP " ++ Py.str_of_int code |}
       else
         ret {| r_name := name; r_type := "http"; r_target := url;
                r_status := "WARN"; r_latency_ms := Some latency_ms;
                r_message := "HTTP " ++ Py.str_of_int code |})
      (fun e =>
         now <- perf_counter ;;
         let latency_ms := elapsed_ms start now in
         ret {| r_name := name; r_type := "http"; r_target := url;
                r_status := "DOWN"; r_latency_ms := Some latency_ms;
                r_message := exn_message e |}).

(** ** checks/tcp.py *)

(** [s.connect((host, port))] on a fresh socket with a 2 s time-out;
    creating the socket, before the [try], is taken to succeed. *)
Definition connect (w : World) (host : string) (port : Z) : M unit :=
  fun s =>
    let '(failure, dt) := tcp_connect w (clock s) host port in
    io (IoConnect host port) dt
       match failure with
       | None => Ok tt
       | Some e => Raise e
       end
       s.

(** The [finally] clause closes the socket and swallows what closing may
    raise, so it changes neither the result nor the log. *)
Definition check_tcp (w : World) (name : string) (host : option string)
    (port : Z) (kind : string) : M CheckResult :=
  let target := Py.str_of_opt host ++ ":" ++ Py.str_of_int port in
  if negb (Py.truthy host) then
    ret {| r_name := name; r_type := kind; r_target := target;
           r_status := "DOWN"; r_latency_ms := None;
           r_message := "Missing host" |}
  else
    start <- perf_counter ;;
    try_except
      (_ <- connect w (Py.str_of_opt host) port ;;
       now <- perf_counter ;;
       let latency_ms := elapsed_ms start now in
       ret {| r_name := name; r_type := kind; r_target := target;
              r_status := "UP"; r_latency_ms := Some latency_ms;
              r_message := "TCP connect ok" |})
      (fun e =>
         now <- perf_counter ;;
         let latency_ms := elapsed_ms start now in
         ret {| r_name := name; r_type := kind; r_target := target;
                r_status := "DOWN"; r_latency_ms := Some latency_ms;
                r_message := exn_message e |}).

(** ** core/runner.py *)

(** [cfg.get("url") or f'{cfg.get("host")}:{cfg.get("port")}']. *)
Definition fallback_target (cfg : ServiceCfg) : string :=
  Py.or_else (cfg_url cfg)
    (Py.str_of_opt (cfg_host cfg) ++ ":" ++ Py.str_of_opt_int (cfg_port cfg)).

(** [int(cfg.get("port", d))]. *)
Definition port_or (cfg : ServiceCfg) (d : Z) : Z :=
  match cfg_port cfg with
  | Some p => p
  | None => d
  end.

(** The kind the dispatcher tests: the [type] of the entry, or the empty
    string when it is absent or empty, in lower case. *)
Definition ctype_of (cfg : ServiceCfg) : string :=
  Py.lower (Py.or_else (cfg_type cfg) EmptyString).

(** The body of the loop of [run_all_checks]: the result appended for one
    item of [settings.services]. *)
Definition dispatch (w : World) (name : string) (cfg : ServiceCfg)
  : M CheckResult :=
  let ctype := ctype_of cfg in
  if String.eqb ctype "http" then
    check_http w name cfg
  else if String.eqb ctype "mysql" then
    check_tcp w name (cfg_host cfg) (port_or cfg 3306) "mysql"
  else if String.eqb ctype "redis" then
    check_tcp w name (cfg_host cfg) (port_or cfg 6379) "redis"
  else
    ret {| r_name := name;
           r_type := Py.or_else (Some ctype) "unknown";
           r_target := fallback_target cfg;
           r_status := "WARN";
           r_latency_ms := None;
           r_message := "Unknown check type: " ++ Py.repr ctype |}.

Fixpoint run_all_checks_loop (w : World) (items : list (string * ServiceCfg))
    (results : list CheckResult) : M (list CheckResult) :=
  match items with
  | [] => ret results
  | (name, cfg) :: rest =>
      r <- dispatch w name cfg ;;
      run_all_checks_loop w rest (results ++ [r])
  end.

Definition run_all_checks (w : World) (settings : Settings)
  : M (list CheckResult) :=
  run_all_checks_loop w (services settings) [].

(** ** checks/disk.py *)

Definition disk_usage (w : World) (path : string) : M usage :=
  fun s => io (IoDiskUsage path) 0 (statvfs w (clock s) path) s.

(** [(usage.free / usage.total) * 100.0 if usage.total else 0.0]. *)
Definition free_pct (u : usage) : Py.float :=
  if total u =? 0 then S754_zero false
  else Py.fmul (Py.int_truediv (free u) (total u)) (Py.float_of_int 100).

(** The two statements after [free_pct] is known: status and message. *)
Definition disk_verdict (pct warn_pct_free_below : Py.float)
  : string * string :=
  if Py.flt pct warn_pct_free_below then
    ("WARN",
     "Low disk: " ++ Py.format_1f pct ++ "% free (< "
       ++ Py.format_1f warn_pct_free_below ++ "%)")
  else
    ("UP", Py.format_1f pct ++ "% free").

(** The [try] statement of the loop, for a path that is present. *)
Definition disk_check (w : World) (path : string)
    (warn_pct_free_below : Py.float) : M CheckResult :=
  try_except
    (u <- disk_usage w path ;;
     let '(status, msg) := disk_verdict (free_pct u) warn_pct_free_below in
     ret {| r_name := "disk:" ++ path; r_type := "disk"; r_target := path;
            r_status := status; r_latency_ms := None; r_message := msg |})
    (fun e =>
       ret {| r_name := "disk:" ++ path; r_type := "disk"; r_target := path;
              r_status := "WARN"; r_latency_ms := None;
              r_message := exn_message e |}).

(** [float(cfg.get("warn_pct_free_below", 10))]. *)
Definition warn_of (cfg : DiskCfg) : Py.float :=
  match cfg_warn_pct_free_below cfg with
  | Some t => t
  | None => Py.float_of_int 10
  end.

Fixpoint run_disk_checks_loop (w : World) (disk_cfgs : list DiskCfg)
    (results : list CheckResult) : M (list CheckResult) :=
  match disk_cfgs with
  | [] => ret results
  | cfg :: rest =>
      let path := cfg_path cfg in
      let warn_pct_free_below := warn_of cfg in
      if negb (Py.truthy path) then
        run_disk_checks_loop w rest results
      else
        r <- disk_check w (Py.str_of_opt path) warn_pct_free_below ;;
        run_disk_checks_loop w rest (results ++ [r])
  end.

Definition run_disk_checks (w : World) (settings : Settings)
  : M (list CheckResult) :=
  run_disk_checks_loop w (disk_checks settings) [].

(** ** api/routes_summary.py *)

(** The [for] loop of [summary], from the current value of [overall]; its
    [break] ends the scan. *)
Fixpoint overall_loop (overall : string) (rs : list CheckResult) : string :=
  match rs with
  | [] => overall
  | r :: rest =>
      if String.eqb (r_status r) "DOWN" then "DOWN"
      else if String.eqb (r_status r) "WARN"
              && negb (String.eqb overall "DOWN")
      then overall_loop "WARN" rest
      else overall_loop overall rest
  end.

Definition overall_of (service_results disk_results : list CheckResult)
  : string :=
  overall_loop "UP" (service_results ++ disk_results).

Record Report := {
  overall_status : string;
  generated_at : string;
  report_services : list CheckResult;
  report_disk : list CheckResult
}.

(** [summary], for settings already loaded. *)
Definition summary (w : World) (settings : Settings) : M Report :=
  service_results <- run_all_checks w settings ;;
  disk_results <- run_disk_checks w settings ;;
  fun s =>
    (Ok {| overall_status := overall_of service_results disk_results;
           generated_at := utc_now w (clock s);
           report_services := service_results;
           report_disk := disk_results |}, s).

(** The reduction as the specification words it: one pass, [DOWN] once
    reached is kept, a [WARN] raises the value only from [UP]. *)
Definition spec_step (overall status : string) : string :=
  if String.eqb overall "DOWN" then "DOWN"
  else if String.eqb status "DOWN" then "DOWN"
  else if String.eqb status "WARN" && String.eqb overall "UP" then "WARN"
  else overall.

Definition spec_reduce (rs : list CheckResult) : string :=
  fold_left spec_step (map r_status rs) "UP".

(** Rank of a status in the precedence DOWN > WARN > UP. *)
Definition has_status (s : string) (rs : list CheckResult) : bool :=
  existsb (fun r => String.eqb (r_status r) s) rs.

Definition with_status (s : string) : CheckResult :=
  {| r_name := "x"; r_type := "http"; r_target := "-"; r_status := s;
     r_latency_ms := None; r_message := EmptyString |}.

(** ** app/main.py *)

Module App.

(** The module-level constants read from the process environment. *)
Record Env := {
  APP_VERSION : string;
  WORKBENCH_URL : string;
  TES_URL : string;
  TOOLSERVER_URL : string;
  MODEL_REGISTRY_URL : string;
  LIMSX_URL : string;
  MYSQL_HOST : string;
  MYSQL_PORT : Z;
  REDIS_HOST : string;
  REDIS_PORT : Z;
  WORKBENCH_HEALTH_PATH : string;
  TES_HEALTH_PATH : string;
  TOOLSERVER_HEALTH_PATH : string;
  MODEL_REGISTRY_HEALTH_PATH : string;
  LIMSX_HEALTH_PATH : string
}.

Definition APP_NAME : string := "omnibioai-control-center".

Record ServiceCheck := {
  name : string;
  kind : string;
  target : string;
  path : option string
}.

(** The dictionaries the two probes return; the key [type] is the
    constructor. *)
Inductive Entry :=
| HttpEntry (name url : string) (ok : bool) (status_code : option Z)
    (latency_ms : Z) (response error : option string)
| TcpEntry (name host : string) (port : Z) (ok : bool) (latency_ms : Z)
    (error : option string).

Definition entry_name (e : Entry) : string :=
  match e with
  | HttpEntry n _ _ _ _ _ _ => n
  | TcpEntry n _ _ _ _ _ => n
  end.

Definition entry_ok (e : Entry) : bool :=
  match e with
  | HttpEntry _ _ ok _ _ _ _ => ok
  | TcpEntry _ _ _ ok _ _ => ok
  end.

(** What [await client.get(url)] yields: a response, with the value of
    [r.json()] ([None] when that raises), or an exception with its text. *)
Inductive get_outcome :=
| Response (status_code : Z) (content_type : string) (json : option string)
| GetFailed (text : string).

(** The state of an awaited call when the batch deadline
    [TOTAL_TIMEOUT_SECONDS] expires: [None] while it has not completed,
    else its outcome with the readings of [_now_ms()] before and after. *)
Record World := {
  client_get : string -> option (get_outcome * Z * Z);
  open_connection : string -> Z -> option (option string * Z * Z);
  timestamp_now : string
}.

(** A coroutine at the deadline: finished with a value, or still pending. *)
Definition task (A : Type) : Type := option A.

Definition _check_http (w : World) (name base path : string) : task Entry :=
  let url := Py.rstrip_slash base ++ path in
  match client_get w url with
  | None => None
  | Some (Response code ctype json, start, now) =>
      let latency_ms := now - start in
      let ok := (200 <=? code) && (code <? 300) in
      let body :=
        if Py.contains "application/json" ctype then json else None in
      Some (HttpEntry name url ok (Some code) latency_ms body
              (if ok then None else Some ("HTTP " ++ Py.str_of_int code)))
  | Some (GetFailed text, start, now) =>
      Some (HttpEntry name url false None (now - start) None (Some text))
  end.

Definition _check_tcp (w : World) (name host : string) (port : Z)
  : task Entry :=
  match open_connection w host port with
  | None => None
  | Some (None, start, now) =>
      Some (TcpEntry name host port true (now - start) None)
  | Some (Some text, start, now) =>
      Some (TcpEntry name host port false (now - start) (Some text))
  end.

Definition _checks (env : Env) : list ServiceCheck :=
  [ Build_ServiceCheck "workbench" "http" (WORKBENCH_URL env)
      (Some (WORKBENCH_HEALTH_PATH env));
    Build_ServiceCheck "tes" "http" (TES_URL env) (Some (TES_HEALTH_PATH env));
    Build_ServiceCheck "toolserver" "http" (TOOLSERVER_URL env)
      (Some (TOOLSERVER_HEALTH_PATH env));
    Build_ServiceCheck "model-registry" "http" (MODEL_REGISTRY_URL env)
      (Some (MODEL_REGISTRY_HEALTH_PATH env));
    Build_ServiceCheck "lims-x" "http" (LIMSX_URL env)
      (Some (LIMSX_HEALTH_PATH env));
    Build_ServiceCheck "mysql" "tcp"
      (MYSQL_HOST env ++ ":" ++ Py.str_of_int (MYSQL_PORT env)) None;
    Build_ServiceCheck "redis" "tcp"
      (REDIS_HOST env ++ ":" ++ Py.str_of_int (REDIS_PORT env)) None ].

(** The body of the loop that fills [tasks], for one check: unpacking the
    split target and reading the port raise [ValueError], before any task
    runs. *)
Definition task_of (w : World) (c : ServiceCheck) : result (task Entry) :=
  if String.eqb (kind c) "http" then
    Ok (_check_http w (name c) (target c) (Py.or_else (path c) "/health"))
  else
    match Py.split_colon (target c) with
    | [host; port_str] =>
        match Py.int_of_str port_str with
        | Some port => Ok (_check_tcp w (name c) host port)
        | None =>
            Raise (Exn "ValueError"
                     ("invalid literal for int() with base 10: "
                        ++ Py.repr port_str))
        end
    | [_] =>
        Raise (Exn "ValueError"
                 "not enough values to unpack (expected 2, got 1)")
    | _ => Raise (Exn "ValueError" "too many values to unpack (expected 2)")
    end.

Fixpoint make_tasks (w : World) (checks : list ServiceCheck)
  : result (list (task Entry)) :=
  match checks with
  | [] => Ok []
  | c :: rest =>
      match task_of w c with
      | Raise e => Raise e
      | Ok t =>
          match make_tasks w rest with
          | Raise e => Raise e
          | Ok ts => Ok (t :: ts)
          end
      end
  end.

(** [asyncio.gather] of the tasks, at the deadline: the results in the
    order of the tasks once every task has finished. *)
Fixpoint gather {A} (tasks : list (task A)) : task (list A) :=
  match tasks with
  | [] => Some []
  | t :: rest =>
      match t, gather rest with
      | Some a, Some rs => Some (a :: rs)
      | _, _ => None
      end
  end.

(** [asyncio.wait_for(aw, timeout=TOTAL_TIMEOUT_SECONDS)]. *)
Definition wait_for {A} (aw : task A) : result A :=
  match aw with
  | Some a => Ok a
  | None => Raise (Exn "TimeoutError" EmptyString)
  end.

Record Health := {
  ok : bool;
  service : string;
  version : string;
  timestamp_utc : string;
  health_services : list Entry
}.

(** The body of [_run_checks] once [checks] is bound. *)
Definition run_checks_of (env : Env) (w : World) (checks : list ServiceCheck)
  : result Health :=
  match make_tasks w checks with
  | Raise e => Raise e
  | Ok tasks =>
      match wait_for (gather tasks) with
      | Raise e => Raise e
      | Ok results =>
          Ok {| ok := forallb entry_ok results;
                service := APP_NAME;
                version := APP_VERSION env;
                timestamp_utc := timestamp_now w;
                health_services := results |}
      end
  end.

Definition _run_checks (env : Env) (w : World) : result Health :=
  run_checks_of env w (_checks env).

(** A check whose probe has not finished when the deadline expires. *)
Definition pending (w : World) (c : ServiceCheck) : bool :=
  match task_of w c with
  | Ok None => true
  | _ => false
  end.

End App.

(** ** Notions used in the statements *)

(** The state after one I/O call that took [dt] microseconds. *)
Definition after (s : state) (call : io_call) (dt : N) : state :=
  State (clock s + Z.of_N dt) (log s ++ [call]).

(** What [check_http] returns for a URL that is present, by the reply of
    the network. *)
Definition http_result (name url : string) (latency_ms : Z) (reply : http_reply)
  : CheckResult :=
  match reply with
  | Answered code reason =>
      if (200 <=? code) && (code <? 300) then
        {| r_name := name; r_type := "http"; r_target := url;
           r_status := "UP"; r_latency_ms := Some latency_ms;
           r_message := "HTTP " ++ Py.str_of_int code |}
      else
        {| r_name := name; r_type := "http"; r_target := url;
           r_status := "DOWN"; r_latency_ms := Some latency_ms;
           r_message :=
             "HTTPError: HTTP Error " ++ Py.str_of_int code ++ ": " ++ reason |}
  | Unreachable e =>
      {| r_name := name; r_type := "http"; r_target := url;
         r_status := "DOWN"; r_latency_ms := Some latency_ms;
         r_message := exn_message e |}
  end.

(** What [check_tcp] returns for a host that is present. *)
Definition tcp_result (name host : string) (port : Z) (kind : string)
    (latency_ms : Z) (failure : option exn) : CheckResult :=
  match failure with
  | None =>
      {| r_name := name; r_type := kind;
         r_target := host ++ ":" ++ Py.str_of_int port;
         r_status := "UP"; r_latency_ms := Some latency_ms;
         r_message := "TCP connect ok" |}
  | Some e =>
      {| r_name := name; r_type := kind;
         r_target := host ++ ":" ++ Py.str_of_int port;
         r_status := "DOWN"; r_latency_ms := Some latency_ms;
         r_message := exn_message e |}
  end.

(** The result appended for a kind other than [http], [mysql], [redis]. *)
Definition unknown_result (name : string) (cfg : ServiceCfg) : CheckResult :=
  {| r_name := name;
     r_type := Py.or_else (Some (ctype_of cfg)) "unknown";
     r_target := fallback_target cfg;
     r_status := "WARN";
     r_latency_ms := None;
     r_message := "Unknown check type: " ++ Py.repr (ctype_of cfg) |}.

(** The kinds the dispatcher has a branch for. *)
Definition recognized (ctype : string) : bool :=
  String.eqb ctype "http" || String.eqb ctype "mysql"
  || String.eqb ctype "redis".

(** What [disk_check] appends, by the answer of the file system. *)
Definition disk_result (path : string) (warn_pct_free_below : Py.float)
    (answer : result usage) : CheckResult :=
  match answer with
  | Ok u =>
      {| r_name := "disk:" ++ path; r_type := "disk"; r_target := path;
         r_status := fst (disk_verdict (free_pct u) warn_pct_free_below);
         r_latency_ms := None;
         r_message := snd (disk_verdict (free_pct u) warn_pct_free_below) |}
  | Raise e =>
      {| r_name := "disk:" ++ path; r_type := "disk"; r_target := path;
         r_status := "WARN"; r_latency_ms := None;
         r_message := exn_message e |}
  end.

(** The two statuses a disk result can have. *)
Definition up_or_warn (r : CheckResult) : Prop :=
  r_status r = "UP" \/ r_status r = "WARN".

(** Characters [repr] writes as they are between single quotes. *)
Definition plain_char (c : ascii) : bool :=
  Py.printable c && negb (Ascii.eqb c "'") && negb (Ascii.eqb c "\").

Fixpoint plain (s : string) : bool :=
  match s with
  | EmptyString => true
  | String c s' => plain_char c && plain s'
  end.

(** The entry [cfg] with its [type] replaced. *)
Definition with_type (cfg : ServiceCfg) (type : option string) : ServiceCfg :=
  {| cfg_type := type; cfg_url := cfg_url cfg;
     cfg_timeout_s := cfg_timeout_s cfg; cfg_host := cfg_host cfg;
     cfg_port := cfg_port cfg |}.

(** ** Fixtures *)

Definition s0 : state := State 0 [].

(** The environment of [app/main.py] when no variable is set. *)
Definition default_env : App.Env :=
  {| App.APP_VERSION := "0.1.0";
     App.WORKBENCH_URL := "http://omnibioai:8000";
     App.TES_URL := "http://tes:8081";
     App.TOOLSERVER_URL := "http://toolserver:9090";
     App.MODEL_REGISTRY_URL := "http://model-registry:8095";
     App.LIMSX_URL := "http://lims-x:7000";
     App.MYSQL_HOST := "mysql";
     App.MYSQL_PORT := 3306;
     App.REDIS_HOST := "redis";
     App.REDIS_PORT := 6379;
     App.WORKBENCH_HEALTH_PATH := "/";
     App.TES_HEALTH_PATH := "/health";
     App.TOOLSERVER_HEALTH_PATH := "/health";
     App.MODEL_REGISTRY_HEALTH_PATH := "/health";
     App.LIMSX_HEALTH_PATH := "/" |}.

(** Every service answers at once. *)
Definition fast_world : App.World :=
  {| App.client_get := fun _ => Some (App.Response 200 "text/plain" None, 100, 105);
     App.open_connection := fun _ _ => Some (None, 100, 101);
     App.timestamp_now := "2026-01-01T00:00:00+00:00" |}.

(** As [fast_world], but the task execution service has not answered when
    the batch deadline expires. *)
Definition slow_world : App.World :=
  {| App.client_get := fun url =>
       if String.eqb url "http://tes:8081/health" then None
       else Some (App.Response 200 "text/plain" None, 100, 105);
     App.open_connection := fun _ _ => Some (None, 100, 101);
     App.timestamp_now := "2026-01-01T00:00:00+00:00" |}.

(** A network where every GET is answered [404 Not Found] after 3 ms,
    every connection is accepted after 1 ms, and a file system of 1000
    bytes with 290 free. *)
Definition world_404 : World :=
  {| http_get := fun _ _ _ => (Answered 404 "Not Found", 3000%N);
     tcp_connect := fun _ _ _ => (None, 1000%N);
     statvfs := fun _ _ => Ok (Usage 1000 710 290);
     utc_now := fun _ => "2026-01-01T00:00:00+00:00" |}.

(** A network where nothing answers within the time-out of the probe, and
    a file system without the path asked for. *)
Definition dead_world : World :=
  {| http_get := fun _ _ _ =>
       (Unreachable (Exn "URLError" "<urlopen error timed out>"), 2000000%N);
     tcp_connect := fun _ _ _ =>
       (Some (Exn "TimeoutError" "timed out"), 2000000%N);
     statvfs := fun _ path =>
       Raise (Exn "FileNotFoundError"
                ("[Errno 2] No such file or directory: " ++ Py.repr path));
     utc_now := fun _ => "2026-01-01T00:00:00+00:00" |}.

(** A network where every GET is answered [200 OK] after 12 ms and every
    connection is refused after 1 ms, and a file system of 1000 bytes with
    290 free. *)
Definition mixed_world : World :=
  {| http_get := fun _ _ _ => (Answered 200 "OK", 12000%N);
     tcp_connect := fun _ _ _ =>
       (Some (Exn "ConnectionRefusedError" "[Errno 111] Connection refused"),
        1000%N);
     statvfs := fun _ _ => Ok (Usage 1000 710 290);
     utc_now := fun _ => "2026-01-01T00:00:00+00:00" |}.

Definition scenario : Settings :=
  {| services :=
       [("svc-a", {| cfg_type := Some "http"; cfg_url := Some "http://ok-stub";
                     cfg_timeout_s := None; cfg_host := None;
                     cfg_port := None |});
        ("db", {| cfg_type := Some "mysql"; cfg_url := None;
                  cfg_timeout_s := None; cfg_host := Some "unreachable";
                  cfg_port := Some 5432 |})];
     disk_checks :=
       [{| cfg_path := Some "/";
           cfg_warn_pct_free_below := Some (Py.float_of_int 99) |}] |}.

Definition cfg_none : ServiceCfg :=
  {| cfg_type := None; cfg_url := None; cfg_timeout_s := None;
     cfg_host := None; cfg_port := None |}.

Definition http_cfg (url : string) : ServiceCfg :=
  {| cfg_type := Some "http"; cfg_url := Some url; cfg_timeout_s := None;
     cfg_host := None; cfg_port := None |}.

Definition tcp_cfg (type host : string) (port : option Z) : ServiceCfg :=
  {| cfg_type := Some type; cfg_url := None; cfg_timeout_s := None;
     cfg_host := Some host; cfg_port := port |}.

Definition disk_cfg (path : option string) (warn : Z) : DiskCfg :=
  {| cfg_path := path; cfg_warn_pct_free_below := Some (Py.float_of_int warn) |}.

(** ** core/settings.py, api/routes_services.py, api/routes_summary.py *)

Module Api.

(** The document that [yaml.safe_load] returns, read with the kinds of the
    settings: the keys [services], [system] and [disk_checks] are absent
    or hold their mapping or list. *)
Record RawSystem := { raw_disk_checks : option (list DiskCfg) }.

Record Raw := {
  raw_services : option (list (string * ServiceCfg));
  raw_system : option RawSystem
}.

(** The machine the service runs on: [os.environ.get], [os.path.exists],
    and opening a file and loading its YAML document, which is [None] for
    an empty file and may raise. *)
Record Host := {
  environ : string -> option string;
  path_exists : string -> bool;
  safe_load : string -> result (option Raw)
}.

Definition _default_config_path (h : Host) : string :=
  match environ h "CONTROL_CENTER_CONFIG" with
  | Some v => v
  | None => "/config/control_center.yaml"
  end.

(** [load_settings]; the list of disk checks is read here the way
    [run_disk_checks] reads it from [settings.system]. *)
Definition load_settings (h : Host) : result Settings :=
  let path := _default_config_path h in
  if negb (path_exists h path) then
    Raise (Exn "FileNotFoundError"
             ("Control Center config not found: " ++ path ++ ". "
                ++ "Mount it and/or set CONTROL_CENTER_CONFIG."))
  else
    match safe_load h path with
    | Raise e => Raise e
    | Ok doc =>
        let raw_s := match doc with Some raw => raw_services raw | None => None end in
        let raw_y := match doc with Some raw => raw_system raw | None => None end in
        Ok {| services := match raw_s with Some l => l | None => [] end;
              disk_checks :=
                match raw_y with
                | Some sys =>
                    match raw_disk_checks sys with Some l => l | None => [] end
                | None => []
                end |}
    end.

(** A value or an exception that is already known, as a computation. *)
Definition lift {A} (r : result A) : M A := fun s => (r, s).

(** The route [/services]. *)
Definition services (h : Host) (w : World) : M (list CheckResult) :=
  settings <- lift (load_settings h) ;;
  run_all_checks w settings.

(** The route [/summary]. *)
Definition summary (h : Host) (w : World) : M Report :=
  settings <- lift (load_settings h) ;;
  summary w settings.

End Api.

(** ** app/main.py: the routes *)

Module Endpoints.

Definition entry_error (e : App.Entry) : option string :=
  match e with
  | App.HttpEntry _ _ _ _ _ _ error => error
  | App.TcpEntry _ _ _ _ _ error => error
  end.

(** The route [/health]: the dictionary of [_run_checks] with its key [ok]
    assigned again. *)
Definition health (env : App.Env) (w : App.World) : result App.Health :=
  match App._run_checks env w with
  | Raise e => Raise e
  | Ok details =>
      let ok := forallb App.entry_ok (App.health_services details) in
      Ok {| App.ok := ok;
            App.service := App.service details;
            App.version := App.version details;
            App.timestamp_utc := App.timestamp_utc details;
            App.health_services := App.health_services details |}
  end.

(** The route [/health/services]: the keys [ok] and [services]. *)
Definition health_services (env : App.Env) (w : App.World)
  : result (bool * list App.Entry) :=
  match App._run_checks env w with
  | Raise e => Raise e
  | Ok details =>
      Ok (forallb App.entry_ok (App.health_services details),
          App.health_services details)
  end.

End Endpoints.

(** ** Notions used in the further properties *)

(** The I/O call the dispatcher makes for one item of the settings: one
    for a recognized kind whose required field is present, none
    otherwise. *)
Definition io_of (item : string * ServiceCfg) : list io_call :=
  let cfg := snd item in
  let ctype := ctype_of cfg in
  if String.eqb ctype "http" then
    if Py.truthy (cfg_url cfg)
    then [IoUrlopen (Py.str_of_opt (cfg_url cfg))] else []
  else if String.eqb ctype "mysql" then
    if Py.truthy (cfg_host cfg)
    then [IoConnect (Py.str_of_opt (cfg_host cfg)) (port_or cfg 3306)] else []
  else if String.eqb ctype "redis" then
    if Py.truthy (cfg_host cfg)
    then [IoConnect (Py.str_of_opt (cfg_host cfg)) (port_or cfg 6379)] else []
  else [].

(** The latencies of a list of results, added up; a null latency counts
    for nothing. *)
Fixpoint total_latency_ms (rs : list CheckResult) : Z :=
  match rs with
  | [] => 0
  | r :: rest =>
      match r_latency_ms r with
      | Some l => l
      | None => 0
      end + total_latency_ms rest
  end.

(** The paths the disk probe reads: those of the disk checks that have
    one, in the order of the checks. *)
Definition disk_paths (disk_cfgs : list DiskCfg) : list string :=
  flat_map
    (fun cfg =>
       if Py.truthy (cfg_path cfg) then [Py.str_of_opt (cfg_path cfg)] else [])
    disk_cfgs.

(** The higher of two overall statuses in the precedence DOWN > WARN > UP. *)
Definition max_status (a b : string) : string :=
  if String.eqb a "DOWN" || String.eqb b "DOWN" then "DOWN"
  else if String.eqb a "WARN" || String.eqb b "WARN" then "WARN"
  else "UP".

(** Everything the dispatcher guarantees about the result for one item:
    the log grows by [io_of], the clock does not go back, the latency is
    null exactly when no call was made and otherwise accounts for no more
    than the time that passed, and the status is WARN exactly for a kind
    that is not recognized, UP or DOWN otherwise. *)
Definition probe_facts (item : string * ServiceCfg) (r : CheckResult)
    (s s' : state) : Prop :=
  r_name r = fst item
  /\ log s' = (log s ++ io_of item)%list
  /\ clock s <= clock s'
  /\ (r_latency_ms r = None <-> io_of item = [])
  /\ (forall l, r_latency_ms r = Some l ->
                0 <= l /\ 1000 * l <= clock s' - clock s)
  /\ (recognized (ctype_of (snd item)) = false -> r_status r = "WARN")
  /\ (recognized (ctype_of (snd item)) = true ->
      r_status r = "UP" \/ r_status r = "DOWN").

(** The number of colons in a string. *)
Fixpoint colons (s : string) : nat :=
  match s with
  | EmptyString => 0
  | String c s' => (if Ascii.eqb c ":" then 1 else 0) + colons s'
  end.

(** A run of [n] slashes. *)
Fixpoint slashes (n : nat) : string :=
  match n with
  | O => EmptyString
  | S n' => String "/" (slashes n')
  end.

(** A host without configuration file, and one whose file is empty. *)
Definition bare_host : Api.Host :=
  {| Api.environ := fun _ => None;
     Api.path_exists := fun _ => false;
     Api.safe_load := fun _ => Raise (Exn "FileNotFoundError" "no such file") |}.

Definition blank_host : Api.Host :=
  {| Api.environ := fun name =>
       if String.eqb name "CONTROL_CENTER_CONFIG"
       then Some "/etc/cc.yaml" else None;
     Api.path_exists := fun path => String.eqb path "/etc/cc.yaml";
     Api.safe_load := fun _ => Ok None |}.

(** The default environment with the database on the IPv6 loopback. *)
Definition ipv6_env : App.Env :=
  {| App.APP_VERSION := "0.1.0";
     App.WORKBENCH_URL := "http://omnibioai:8000";
     App.TES_URL := "http://tes:8081";
     App.TOOLSERVER_URL := "http://toolserver:9090";
     App.MODEL_REGISTRY_URL := "http://model-registry:8095";
     App.LIMSX_URL := "http://lims-x:7000";
     App.MYSQL_HOST := "::1";
     App.MYSQL_PORT := 3306;
     App.REDIS_HOST := "redis";
     App.REDIS_PORT := 6379;
     App.WORKBENCH_HEALTH_PATH := "/";
     App.TES_HEALTH_PATH := "/health";
     App.TOOLSERVER_HEALTH_PATH := "/health";
     App.MODEL_REGISTRY_HEALTH_PATH := "/health";
     App.LIMSX_HEALTH_PATH := "/" |}.

(** A world where the workbench answers 503 and MySQL refuses. *)
Definition degraded_world : App.World :=
  {| App.client_get := fun url =>
       if String.eqb url "http://omnibioai:8000/"
       then Some (App.Response 503 "text/html" None, 100, 140)
       else Some (App.Response 200 "application/json" (Some "{}"), 100, 105);
     App.open_connection := fun host _ =>
       if String.eqb host "mysql"
       then Some (Some "[Errno 111] Connect call failed", 100, 101)
       else Some (None, 100, 101);
     App.timestamp_now := "2026-01-01T00:00:00+00:00" |}.

(** What the keys of an entry say together: [ok] holds exactly when there
    is no error, and for an HTTP entry exactly when there is a status
    code and it lies in 200-299. *)
Definition entry_consistent (e : App.Entry) : Prop :=
  (App.entry_ok e = true <-> Endpoints.entry_error e = None)
  /\ match e with
     | App.HttpEntry _ _ ok status_code _ _ _ =>
         (ok = true <-> exists k, status_code = Some k /\ 200 <= k < 300)
         /\ (status_code = None -> ok = false)
     | App.TcpEntry _ _ _ _ _ _ => True
     end.

(** What holds of the result for one item whatever the state. *)
Definition result_facts (item : string * ServiceCfg) (r : CheckResult) : Prop :=
  r_name r = fst item
  /\ (r_latency_ms r = None <-> io_of item = [])
  /\ (forall l, r_latency_ms r = Some l -> 0 <= l)
  /\ (r_status r = "WARN" <-> recognized (ctype_of (snd item)) = false)
  /\ (r_status r = "UP" \/ r_status r = "WARN" \/ r_status r = "DOWN").

(** What holds of a disk result. *)
Definition disk_result_facts (r : CheckResult) : Prop :=
  r_name r = "disk:" ++ r_target r
  /\ r_type r = "disk"
  /\ r_latency_ms r = None
  /\ (r_status r = "UP" \/ r_status r = "WARN").

(** * Properties *)

(** ** Python values *)

Example repr_weird : Py.repr "weird" = "'weird'".
Proof. reflexivity. Qed.

Example lower_mixed : Py.lower "MySQL" = "mysql".
Proof. reflexivity. Qed.

Example format_pct :
  Py.format_1f (Py.fmul (Py.int_truediv 29 100) (Py.float_of_int 100)) = "29.0".
Proof. reflexivity. Qed.

(** ** The status reduction *)

Section Reducer.

Implicit Types (rs : list CheckResult) (r : CheckResult).

Lemma overall_loop_DOWN rs : overall_loop "DOWN" rs = "DOWN".
Proof.
  induction rs as [|r rs IH]; simpl; [reflexivity|].
  destruct (String.eqb (r_status r) "DOWN"); [reflexivity|].
  rewrite andb_false_r. exact IH.
Qed.

Lemma overall_loop_WARN rs :
  overall_loop "WARN" rs = if has_status "DOWN" rs then "DOWN" else "WARN".
Proof.
  induction rs as [|r rs IH]; simpl; [reflexivity|].
  destruct (String.eqb (r_status r) "DOWN"); simpl; [reflexivity|].
  destruct (String.eqb (r_status r) "WARN"); simpl; exact IH.
Qed.

Lemma overall_loop_UP rs :
  overall_loop "UP" rs =
  if has_status "DOWN" rs then "DOWN"
  else if has_status "WARN" rs then "WARN" else "UP".
Proof.
  induction rs as [|r rs IH]; simpl; [reflexivity|].
  destruct (String.eqb (r_status r) "DOWN") eqn:Ed; simpl; [reflexivity|].
  destruct (String.eqb (r_status r) "WARN") eqn:Ew; simpl.
  - rewrite overall_loop_WARN. reflexivity.
  - exact IH.
Qed.

Lemma fold_spec_step_DOWN (l : list string) :
  fold_left spec_step l "DOWN" = "DOWN".
Proof. induction l as [|s l IH]; simpl; [reflexivity | exact IH]. Qed.

Lemma fold_spec_step_WARN rs :
  fold_left spec_step (map r_status rs) "WARN" = overall_loop "WARN" rs.
Proof.
  induction rs as [|r rs IH]; simpl; [reflexivity|].
  unfold spec_step at 2; simpl.
  destruct (String.eqb (r_status r) "DOWN"); simpl.
  - apply fold_spec_step_DOWN.
  - rewrite andb_false_r.
    destruct (String.eqb (r_status r) "WARN"); simpl; exact IH.
Qed.

Lemma fold_spec_step_UP rs :
  fold_left spec_step (map r_status rs) "UP" = overall_loop "UP" rs.
Proof.
  induction rs as [|r rs IH]; simpl; [reflexivity|].
  unfold spec_step at 2; simpl.
  destruct (String.eqb (r_status r) "DOWN"); simpl.
  - apply fold_spec_step_DOWN.
  - destruct (String.eqb (r_status r) "WARN"); simpl.
    + apply fold_spec_step_WARN.
    + exact IH.
Qed.

Lemma has_status_perm (s : string) rs rs' :
  Permutation rs rs' -> has_status s rs = has_status s rs'.
Proof.
  unfold has_status.
  induction 1 as [|r l l' _ IH|r r' l|l l' l'' _ IH1 _ IH2]; simpl.
  - reflexivity.
  - rewrite IH. reflexivity.
  - rewrite !orb_assoc, (orb_comm (String.eqb (r_status r') s)). reflexivity.
  - rewrite IH1. exact IH2.
Qed.

End Reducer.

(** ** Floats *)

Section Floats.

Lemma SFcompare_antisym (x y : spec_float) :
  SFcompare y x = option_map CompOpp (SFcompare x y).
Proof.
  destruct x as [sx|sx| |sx mx ex], y as [sy|sy| |sy my ey]; simpl;
    try reflexivity;
    try (destruct sx; reflexivity);
    try (destruct sy; reflexivity);
    try (destruct sx, sy; reflexivity).
  assert (A : PosDef.Pos.compare_cont Eq my mx
              = CompOpp (PosDef.Pos.compare_cont Eq mx my))
    by (symmetry; exact (Pos.compare_cont_antisym mx my Eq)).
  destruct sx, sy; simpl; try reflexivity;
    rewrite (Z.compare_antisym ey ex);
    destruct (ey ?= ex); simpl; try reflexivity;
    rewrite A; destruct (PosDef.Pos.compare_cont Eq mx my); reflexivity.
Qed.

Lemma shr_1_nonneg mrs : 0 <= shr_m mrs -> 0 <= shr_m (shr_1 mrs).
Proof.
  destruct mrs as [m r s]. simpl. intros H.
  destruct m as [|p|p]; simpl; try lia.
  - destruct p; simpl; lia.
Qed.

Lemma iter_pos_nonneg (p : positive) mrs :
  0 <= shr_m mrs -> 0 <= shr_m (iter_pos shr_1 p mrs).
Proof.
  revert mrs. induction p as [p IH|p IH|]; intros mrs H; simpl.
  - apply IH, IH, shr_1_nonneg, H.
  - apply IH, IH, H.
  - apply shr_1_nonneg, H.
Qed.

Lemma shr_fexp_nonneg prec emax m e l :
  0 <= m -> 0 <= shr_m (fst (shr_fexp prec emax m e l)).
Proof.
  intros H. unfold shr_fexp, shr.
  assert (H0 : 0 <= shr_m (shr_record_of_loc m l)).
  { destruct l as [|[]]; simpl; exact H. }
  destruct (fexp prec emax (Zdigits2 m + e) - e); simpl; try exact H0.
  apply iter_pos_nonneg, H0.
Qed.

Lemma round_nearest_even_nonneg m l : 0 <= m -> 0 <= round_nearest_even m l.
Proof.
  intros H. destruct l as [|[]]; simpl; try lia.
  destruct (Z.even m); lia.
Qed.

Lemma binary_round_aux_not_nan prec emax sx mx ex lx :
  0 <= mx -> binary_round_aux prec emax sx mx ex lx <> S754_nan.
Proof.
  intros H. unfold binary_round_aux.
  pose proof (shr_fexp_nonneg prec emax mx ex lx H) as H1.
  destruct (shr_fexp prec emax mx ex lx) as [mrs' e']. simpl in H1.
  pose proof (shr_fexp_nonneg prec emax _ e' loc_Exact
                (round_nearest_even_nonneg _ (loc_of_shr_record mrs') H1)) as H2.
  destruct (shr_fexp prec emax (round_nearest_even (shr_m mrs') (loc_of_shr_record mrs')) e' loc_Exact) as [mrs'' e''].
  simpl in H2.
  destruct (shr_m mrs'') as [|m|m]; try discriminate.
  - destruct (e'' <=? emax - prec); discriminate.
  - lia.
Qed.

Lemma SFcompare_numbers (x y : spec_float) :
  Py.is_nan x = false -> Py.is_nan y = false -> SFcompare x y <> None.
Proof.
  destruct x as [sx|sx| |sx mx ex], y as [sy|sy| |sy my ey]; simpl;
    intros Hx Hy; discriminate.
Qed.

Lemma flt_negb_fle (x y : Py.float) :
  Py.is_nan x = false -> Py.is_nan y = false ->
  Py.flt x y = negb (Py.fle y x).
Proof.
  intros Hx Hy. pose proof (SFcompare_numbers x y Hx Hy) as H.
  unfold Py.flt, Py.fle, SFltb, SFleb.
  rewrite (SFcompare_antisym x y).
  destruct (SFcompare x y) as [[]|]; simpl; congruence.
Qed.

Lemma fle_not_flt (x y : Py.float) : Py.fle y x = true -> Py.flt x y = false.
Proof.
  unfold Py.flt, Py.fle, SFltb, SFleb.
  rewrite (SFcompare_antisym x y).
  destruct (SFcompare x y) as [[]|]; simpl; congruence.
Qed.

Lemma div_core_nonneg prec emax (m1 m2 : positive) (e1 e2 : Z) :
  0 <= fst (fst (SFdiv_core_binary prec emax (Zpos m1) e1 (Zpos m2) e2)).
Proof.
  unfold SFdiv_core_binary.
  set (sh := e1 - e2 - _).
  set (m' := match sh with Z0 => Zpos m1 | Zpos _ => Z.shiftl (Zpos m1) sh
                      | Zneg _ => 0 end).
  assert (Hm : 0 <= m').
  { unfold m'. destruct sh; try lia. apply Z.shiftl_nonneg. lia. }
  pose proof (Z.div_pos m' (Zpos m2) Hm ltac:(lia)) as Hq.
  unfold Z.div in Hq.
  destruct (Z.div_eucl m' (Zpos m2)) as [q r]. exact Hq.
Qed.

Lemma int_truediv_number (a b : Z) :
  b <> 0 -> Py.is_nan (Py.int_truediv a b) = false.
Proof.
  intros Hb. unfold Py.int_truediv.
  destruct b as [|pb|pb]; [congruence| |];
    destruct a as [|pa|pa]; simpl; try reflexivity;
    match goal with
    | |- context [SFdiv_core_binary ?p ?m ?x ?e1 ?y ?e2] =>
        pose proof (div_core_nonneg p m pa pb e1 e2) as Hq;
        destruct (SFdiv_core_binary p m x e1 y e2) as [[mz ez] lz]
    end;
    simpl in Hq;
    match goal with
    | |- Py.is_nan ?f = false =>
        pose proof (binary_round_aux_not_nan Py.prec Py.emax) as Hn;
        destruct f eqn:E; try reflexivity; exfalso; eapply Hn; eauto
    end.
Qed.

Lemma fmul_hundred_number (x : Py.float) :
  Py.is_nan x = false -> Py.is_nan (Py.fmul x (Py.float_of_int 100)) = false.
Proof.
  intros Hx.
  assert (E : exists m e, Py.float_of_int 100 = S754_finite false m e)
    by (eexists _, _; reflexivity).
  destruct E as (m & e & ->).
  destruct x as [sx|sx| |sx mx ex]; try discriminate; try reflexivity.
  unfold Py.fmul, SFmul.
  destruct (binary_round_aux Py.prec Py.emax (xorb sx false)
              (Z.pos (mx * m)) (ex + e) loc_Exact) eqn:E; try reflexivity.
  exfalso. eapply binary_round_aux_not_nan; [|exact E]. lia.
Qed.

Lemma free_pct_number (u : usage) : Py.is_nan (free_pct u) = false.
Proof.
  unfold free_pct. destruct (total u =? 0) eqn:E; [reflexivity|].
  apply fmul_hundred_number, int_truediv_number.
  apply Z.eqb_neq. exact E.
Qed.

End Floats.

(** ** The probes *)

Ltac run_monad :=
  unfold bind, ret, raise, try_except, perf_counter, io; simpl.

Lemma elapsed_ms_nonneg (t : Z) (dt : N) : 0 <= elapsed_ms t (t + Z.of_N dt).
Proof.
  unfold elapsed_ms. apply Z.quot_pos; lia.
Qed.

Lemma check_http_missing_url (w : World) (name : string) (cfg : ServiceCfg)
    (s : state) :
  Py.truthy (cfg_url cfg) = false ->
  check_http w name cfg s =
  (Ok {| r_name := name; r_type := "http"; r_target := "-";
         r_status := "DOWN"; r_latency_ms := None;
         r_message := "Missing 'url' in config" |}, s).
Proof.
  intros H. unfold check_http. rewrite H. reflexivity.
Qed.

Lemma check_http_run (w : World) (name : string) (cfg : ServiceCfg) (s : state) :
  Py.truthy (cfg_url cfg) = true ->
  let url := Py.str_of_opt (cfg_url cfg) in
  let '(reply, dt) := http_get w (clock s) url (timeout_of cfg) in
  check_http w name cfg s =
  (Ok (http_result name url (elapsed_ms (clock s) (clock s + Z.of_N dt)) reply),
   after s (IoUrlopen url) dt).
Proof.
  intros H url. unfold check_http. rewrite H. simpl. fold url.
  unfold urlopen. run_monad.
  destruct (http_get w (clock s) url (timeout_of cfg)) as [reply dt].
  destruct reply as [code reason|e]; simpl; [|reflexivity].
  destruct ((200 <=? code) && (code <? 300)) eqn:E2; simpl; [|reflexivity].
  apply andb_prop in E2 as [Hlo Hhi].
  rewrite Hlo. simpl.
  replace (code <? 400) with true by (symmetry; apply Z.ltb_lt; apply Z.ltb_lt in Hhi; lia).
  reflexivity.
Qed.

Lemma check_http_total (w : World) (name : string) (cfg : ServiceCfg)
    (s : state) :
  exists r s', check_http w name cfg s = (Ok r, s') /\ r_name r = name.
Proof.
  destruct (Py.truthy (cfg_url cfg)) eqn:H.
  - pose proof (check_http_run w name cfg s H) as R. simpl in R.
    destruct (http_get w (clock s) _ (timeout_of cfg)) as [reply dt].
    eexists _, _. split; [exact R|].
    destruct reply as [code reason|e]; simpl; [|reflexivity].
    destruct ((200 <=? code) && (code <? 300)); reflexivity.
  - eexists _, _. split; [apply check_http_missing_url; exact H|reflexivity].
Qed.

Lemma check_tcp_missing_host (w : World) (name : string) (host : option string)
    (port : Z) (kind : string) (s : state) :
  Py.truthy host = false ->
  check_tcp w name host port kind s =
  (Ok {| r_name := name; r_type := kind;
         r_target := Py.str_of_opt host ++ ":" ++ Py.str_of_int port;
         r_status := "DOWN"; r_latency_ms := None;
         r_message := "Missing host" |}, s).
Proof.
  intros H. unfold check_tcp. rewrite H. reflexivity.
Qed.

Lemma check_tcp_run (w : World) (name : string) (host : option string)
    (port : Z) (kind : string) (s : state) :
  Py.truthy host = true ->
  let h := Py.str_of_opt host in
  let '(failure, dt) := tcp_connect w (clock s) h port in
  check_tcp w name host port kind s =
  (Ok (tcp_result name h port kind
         (elapsed_ms (clock s) (clock s + Z.of_N dt)) failure),
   after s (IoConnect h port) dt).
Proof.
  intros H h. unfold check_tcp. rewrite H. simpl. fold h.
  unfold connect. run_monad.
  destruct (tcp_connect w (clock s) h port) as [failure dt].
  destruct failure as [e|]; reflexivity.
Qed.

Lemma check_tcp_total (w : World) (name : string) (host : option string)
    (port : Z) (kind : string) (s : state) :
  exists r s', check_tcp w name host port kind s = (Ok r, s') /\ r_name r = name.
Proof.
  destruct (Py.truthy host) eqn:H.
  - pose proof (check_tcp_run w name host port kind s H) as R. simpl in R.
    destruct (tcp_connect w (clock s) _ port) as [failure dt].
    eexists _, _. split; [exact R|].
    destruct failure; reflexivity.
  - eexists _, _. split; [apply check_tcp_missing_host; exact H|reflexivity].
Qed.

(** ** The dispatcher *)

Lemma dispatch_unknown (w : World) (name : string) (cfg : ServiceCfg)
    (s : state) :
  recognized (ctype_of cfg) = false ->
  dispatch w name cfg s = (Ok (unknown_result name cfg), s).
Proof.
  unfold recognized, dispatch. intros H.
  apply orb_false_elim in H as [H Hr].
  apply orb_false_elim in H as [Hh Hm].
  rewrite Hh, Hm, Hr. reflexivity.
Qed.

Lemma dispatch_http (w : World) (name : string) (cfg : ServiceCfg) :
  ctype_of cfg = "http" -> dispatch w name cfg = check_http w name cfg.
Proof. unfold dispatch. intros ->. reflexivity. Qed.

Lemma dispatch_mysql (w : World) (name : string) (cfg : ServiceCfg) :
  ctype_of cfg = "mysql" ->
  dispatch w name cfg
  = check_tcp w name (cfg_host cfg) (port_or cfg 3306) "mysql".
Proof. unfold dispatch. intros ->. reflexivity. Qed.

Lemma dispatch_redis (w : World) (name : string) (cfg : ServiceCfg) :
  ctype_of cfg = "redis" ->
  dispatch w name cfg
  = check_tcp w name (cfg_host cfg) (port_or cfg 6379) "redis".
Proof. unfold dispatch. intros ->. reflexivity. Qed.

Lemma dispatch_total (w : World) (name : string) (cfg : ServiceCfg)
    (s : state) :
  exists r s', dispatch w name cfg s = (Ok r, s') /\ r_name r = name.
Proof.
  unfold dispatch.
  destruct (String.eqb (ctype_of cfg) "http"); [apply check_http_total|].
  destruct (String.eqb (ctype_of cfg) "mysql"); [apply check_tcp_total|].
  destruct (String.eqb (ctype_of cfg) "redis"); [apply check_tcp_total|].
  eexists _, _. split; reflexivity.
Qed.

Lemma run_all_checks_loop_total (w : World) (items : list (string * ServiceCfg)) :
  forall (results : list CheckResult) (s : state),
  exists rs s',
    run_all_checks_loop w items results s = (Ok (results ++ rs)%list, s')
    /\ map r_name rs = map fst items.
Proof.
  induction items as [|[name cfg] rest IH]; intros results s; simpl.
  - exists [], s. rewrite app_nil_r. split; reflexivity.
  - destruct (dispatch_total w name cfg s) as (r & s1 & Hd & Hn).
    destruct (IH (results ++ [r])%list s1) as (rs & s2 & Hl & Hm).
    exists (r :: rs), s2. split.
    + unfold bind. rewrite Hd, Hl, <- app_assoc. reflexivity.
    + simpl. rewrite Hn, Hm. reflexivity.
Qed.

Lemma run_all_checks_total (w : World) (settings : Settings) (s : state) :
  exists rs s',
    run_all_checks w settings s = (Ok rs, s')
    /\ map r_name rs = map fst (services settings).
Proof.
  unfold run_all_checks.
  destruct (run_all_checks_loop_total w (services settings) [] s)
    as (rs & s' & H & Hn).
  exists rs, s'. split; assumption.
Qed.

(** ** The disk probe *)

Lemma disk_check_run (w : World) (path : string) (warn : Py.float) (s : state) :
  disk_check w path warn s
  = (Ok (disk_result path warn (statvfs w (clock s) path)),
     after s (IoDiskUsage path) 0).
Proof.
  unfold disk_check, disk_usage. run_monad.
  destruct (statvfs w (clock s) path) as [u|e]; simpl; [|reflexivity].
  destruct (disk_verdict (free_pct u) warn) as [status msg]. reflexivity.
Qed.

Lemma disk_result_up_or_warn (path : string) (warn : Py.float)
    (answer : result usage) :
  up_or_warn (disk_result path warn answer).
Proof.
  unfold up_or_warn. destruct answer as [u|e]; simpl; [|right; reflexivity].
  unfold disk_verdict. destruct (Py.flt (free_pct u) warn); simpl; auto.
Qed.

Lemma run_disk_checks_loop_total (w : World) (disk_cfgs : list DiskCfg) :
  forall (results : list CheckResult) (s : state),
  exists rs s',
    run_disk_checks_loop w disk_cfgs results s = (Ok (results ++ rs)%list, s')
    /\ Forall up_or_warn rs
    /\ (length rs <= length disk_cfgs)%nat.
Proof.
  induction disk_cfgs as [|cfg rest IH]; intros results s; simpl.
  - exists [], s. rewrite app_nil_r. repeat split; auto.
  - destruct (Py.truthy (cfg_path cfg)); simpl.
    + destruct (IH (results ++ [disk_result (Py.str_of_opt (cfg_path cfg))
                                    (warn_of cfg)
                                    (statvfs w (clock s)
                                       (Py.str_of_opt (cfg_path cfg)))])%list
                   (after s (IoDiskUsage (Py.str_of_opt (cfg_path cfg))) 0))
        as (rs & s2 & Hl & Hf & Hn).
      eexists (_ :: rs), s2. split; [|split].
      * unfold bind. rewrite disk_check_run, Hl, <- app_assoc. reflexivity.
      * constructor; [apply disk_result_up_or_warn | exact Hf].
      * simpl. lia.
    + destruct (IH results s) as (rs & s2 & Hl & Hf & Hn).
      exists rs, s2. repeat split; auto.
Qed.

Lemma run_disk_checks_total (w : World) (settings : Settings) (s : state) :
  exists rs s',
    run_disk_checks w settings s = (Ok rs, s') /\ Forall up_or_warn rs.
Proof.
  unfold run_disk_checks.
  destruct (run_disk_checks_loop_total w (disk_checks settings) [] s)
    as (rs & s' & H & Hf & _).
  exists rs, s'. split; assumption.
Qed.

(** ** The asynchronous dispatcher *)

Section Async.

Import App.

Lemma gather_Some {A} (tasks : list (task A)) (rs : list A) :
  gather tasks = Some rs <-> tasks = map Some rs.
Proof.
  revert rs. induction tasks as [|t tasks IH]; intros rs; simpl.
  - split.
    + intros [= <-]. reflexivity.
    + destruct rs; [reflexivity | discriminate].
  - destruct t as [a|].
    + destruct (gather tasks) as [rs'|] eqn:G.
      * split.
        -- intros [= <-]. simpl. f_equal. apply IH. reflexivity.
        -- destruct rs as [|b rs]; [discriminate|]. simpl. intros [= <- H].
           apply IH in H. injection H as ->. reflexivity.
      * split; [discriminate|].
        destruct rs as [|b rs]; [discriminate|]. simpl. intros [= <- H].
        apply IH in H. discriminate.
    + split; [discriminate|]. destruct rs; discriminate.
Qed.

Lemma gather_pending {A} (tasks : list (task A)) :
  In None tasks -> gather tasks = None.
Proof.
  induction tasks as [|t tasks IH]; simpl; [tauto|].
  intros [->|H]; [reflexivity|].
  rewrite (IH H). destruct t; reflexivity.
Qed.

Lemma make_tasks_Ok (w : World) (checks : list ServiceCheck)
    (ts : list (task Entry)) :
  make_tasks w checks = Ok ts <-> Forall2 (fun c t => task_of w c = Ok t) checks ts.
Proof.
  revert ts. induction checks as [|c rest IH]; intros ts; simpl.
  - split.
    + intros [= <-]. constructor.
    + inversion 1. reflexivity.
  - destruct (task_of w c) as [t|e] eqn:T.
    + destruct (make_tasks w rest) as [ts'|e] eqn:R.
      * split.
        -- intros [= <-]. constructor; [exact T | apply IH; reflexivity].
        -- inversion 1 as [|c' t' rest' ts'' Ht Hr]; subst.
           apply IH in Hr. congruence.
      * split; [discriminate|].
        inversion 1 as [|c' t' rest' ts'' Ht Hr]; subst.
        apply IH in Hr. discriminate.
    + split; [discriminate|].
      inversion 1 as [|c' t' rest' ts'' Ht Hr]; subst. congruence.
Qed.

Lemma task_of_name (w : World) (c : ServiceCheck) (e : Entry) :
  task_of w c = Ok (Some e) -> entry_name e = name c.
Proof.
  unfold task_of.
  destruct (String.eqb (kind c) "http").
  - unfold _check_http. intros [= H].
    destruct (client_get w _) as [[[[code ctype json|text] t0] t1]|];
      [| |discriminate]; injection H as <-; reflexivity.
  - destruct (Py.split_colon (target c)) as [|host [|port_str [|x l]]];
      try discriminate.
    destruct (Py.int_of_str port_str) as [port|]; [|discriminate].
    unfold _check_tcp. intros [= H].
    destruct (open_connection w host port) as [[[[text|] t0] t1]|];
      [| |discriminate]; injection H as <-; reflexivity.
Qed.

Lemma tasks_names (w : World) (checks : list ServiceCheck)
    (results : list Entry) :
  Forall2 (fun c t => task_of w c = Ok t) checks (map Some results) ->
  map entry_name results = map name checks.
Proof.
  revert results. induction checks as [|c rest IH]; intros results H.
  - inversion H as [E|]. destruct results; [reflexivity | discriminate].
  - destruct results as [|e results]; [inversion H|].
    simpl in H. inversion H as [|c' t' rest' ts' Ht Hr]; subst.
    simpl. rewrite (task_of_name w c e Ht), (IH results Hr). reflexivity.
Qed.

Lemma run_checks_of_Ok (env : Env) (w : World) (checks : list ServiceCheck)
    (h : Health) :
  run_checks_of env w checks = Ok h ->
  map entry_name (health_services h) = map name checks.
Proof.
  unfold run_checks_of.
  destruct (make_tasks w checks) as [tasks|e] eqn:T; [|discriminate].
  destruct (gather tasks) as [results|] eqn:G; simpl; [|discriminate].
  intros [= <-]. simpl.
  apply gather_Some in G. subst tasks.
  apply make_tasks_Ok in T. exact (tasks_names w checks results T).
Qed.

Lemma run_checks_of_finished (env : Env) (w : World)
    (checks : list ServiceCheck) :
  Forall (fun c => exists e, task_of w c = Ok (Some e)) checks ->
  exists h, run_checks_of env w checks = Ok h
            /\ map entry_name (health_services h) = map name checks.
Proof.
  intros H.
  assert (T : exists results,
             make_tasks w checks = Ok (map Some results)).
  { induction H as [|c rest (e & He) _ (results & IH)].
    - exists []. reflexivity.
    - exists (e :: results). simpl. rewrite He, IH. reflexivity. }
  destruct T as (results & T).
  assert (R : exists h, run_checks_of env w checks = Ok h).
  { unfold run_checks_of. rewrite T.
    rewrite (proj2 (gather_Some _ results) eq_refl). simpl.
    eexists. reflexivity. }
  destruct R as (h & R). exists h. split; [exact R|].
  exact (run_checks_of_Ok env w checks h R).
Qed.

Lemma run_checks_of_pending (env : Env) (w : World)
    (checks : list ServiceCheck) :
  Forall (fun c => exists t, task_of w c = Ok t) checks ->
  Exists (fun c => pending w c = true) checks ->
  run_checks_of env w checks = Raise (Exn "TimeoutError" EmptyString).
Proof.
  intros Hw Hp.
  assert (T : exists tasks, make_tasks w checks = Ok tasks /\ In None tasks).
  { induction Hw as [|c rest (t & Ht) Hw IH].
    - inversion Hp.
    - simpl. rewrite Ht.
      assert (R : exists ts, make_tasks w rest = Ok ts).
      { clear -Hw. induction Hw as [|c rest (t & Ht) _ (ts & IH)].
        - exists []. reflexivity.
        - exists (t :: ts). simpl. rewrite Ht, IH. reflexivity. }
      destruct R as (ts & R).
      inversion Hp as [c' rest' P|c' rest' P]; subst.
      + rewrite R. exists (t :: ts). split; [reflexivity|].
        unfold pending in P. rewrite Ht in P.
        destruct t; [discriminate | left; reflexivity].
      + destruct (IH P) as (ts' & R' & I).
        rewrite R'. exists (t :: ts'). split; [reflexivity | right; exact I]. }
  destruct T as (tasks & T & I).
  unfold run_checks_of. rewrite T, (gather_pending tasks I). reflexivity.
Qed.

End Async.

(** * The claims *)

(** ** C1 *)

(** C1: the overall status of [summary] over the service results followed
    by the disk results is the one-pass reduction the specification words
    (start at UP, DOWN once reached is kept, WARN raises only UP), which
    is the precedence DOWN > WARN > UP; without results it is UP; and
    [summary] always returns a report carrying that value. *)
Theorem overall_status_precedence :
  (forall service_results disk_results : list CheckResult,
      let rs := (service_results ++ disk_results)%list in
      overall_of service_results disk_results = spec_reduce rs
      /\ overall_of service_results disk_results
         = (if has_status "DOWN" rs then "DOWN"
            else if has_status "WARN" rs then "WARN" else "UP"))
  /\ overall_of [] [] = "UP"
  /\ (forall (w : World) (settings : Settings) (s : state),
        exists rep s',
          summary w settings s = (Ok rep, s')
          /\ overall_status rep
             = spec_reduce (report_services rep ++ report_disk rep)%list).
Proof.
  split; [|split].
  - intros service_results disk_results rs. split.
    + unfold overall_of, spec_reduce. fold rs. symmetry.
      apply fold_spec_step_UP.
    + unfold overall_of. fold rs. apply overall_loop_UP.
  - reflexivity.
  - intros w settings s. unfold summary, bind.
    destruct (run_all_checks_total w settings s) as (rs & s1 & -> & _).
    destruct (run_disk_checks_total w settings s1) as (ds & s2 & -> & _).
    eexists _, _. split; [reflexivity|]. simpl.
    unfold overall_of, spec_reduce. symmetry. apply fold_spec_step_UP.
Qed.

(** ** C8 *)

(** C8: the reduction gives the same overall status on every permutation
    of the results; it is UP on no result, WARN on UP, WARN, DOWN on
    WARN, DOWN, UP, and so on for the cases the specification lists. *)
Theorem overall_status_order_independent (rs rs' : list CheckResult)
    (H : Permutation rs rs') :
  overall_loop "UP" rs = overall_loop "UP" rs'
  /\ overall_loop "UP" [] = "UP"
  /\ overall_loop "UP" [with_status "UP"; with_status "UP"] = "UP"
  /\ overall_loop "UP" [with_status "UP"; with_status "WARN"] = "WARN"
  /\ overall_loop "UP" [with_status "WARN"; with_status "DOWN"; with_status "UP"]
     = "DOWN"
  /\ overall_loop "UP" [with_status "DOWN"; with_status "UP"] = "DOWN".
Proof.
  split; [|repeat split].
  rewrite !overall_loop_UP.
  rewrite (has_status_perm "DOWN" rs rs' H), (has_status_perm "WARN" rs rs' H).
  reflexivity.
Qed.

Lemma overall_status_order_independent_witness :
  overall_loop "UP" [with_status "WARN"; with_status "DOWN"; with_status "UP"]
  = overall_loop "UP" [with_status "UP"; with_status "DOWN"; with_status "WARN"].
Proof.
  apply (overall_status_order_independent
           [with_status "WARN"; with_status "DOWN"; with_status "UP"]
           [with_status "UP"; with_status "DOWN"; with_status "WARN"]).
  apply (perm_trans (l' := [with_status "DOWN"; with_status "WARN"; with_status "UP"])).
  - apply perm_swap.
  - apply (perm_trans (l' := [with_status "DOWN"; with_status "UP"; with_status "WARN"])).
    + apply perm_skip, perm_swap.
    + apply perm_swap.
Defined.

(** The results of [run_all_checks] stand at the places of their entries. *)
Lemma run_all_checks_ordered (w : World) (settings : Settings) (s : state) :
  exists rs s',
    run_all_checks w settings s = (Ok rs, s')
    /\ map r_name rs = map fst (services settings)
    /\ length rs = length (services settings)
    /\ forall (i : nat) (name : string) (cfg : ServiceCfg),
        nth_error (services settings) i = Some (name, cfg) ->
        exists r, nth_error rs i = Some r /\ r_name r = name.
Proof.
  destruct (run_all_checks_total w settings s) as (rs & s' & R & Hn).
  exists rs, s'. split; [exact R|]. split; [exact Hn|].
  assert (L : length rs = length (services settings)).
  { rewrite <- (length_map r_name rs), Hn. apply length_map. }
  split; [exact L|].
  intros i name cfg Hi.
  assert (Hi' : nth_error (map fst (services settings)) i = Some name).
  { rewrite nth_error_map, Hi. reflexivity. }
  rewrite <- Hn, nth_error_map in Hi'.
  destruct (nth_error rs i) as [r|]; [|discriminate].
  exists r. split; [reflexivity|]. simpl in Hi'. congruence.
Qed.

(** ** C3 *)

(** C3: whatever the network answers and however long each probe takes,
    [run_all_checks] returns one result per entry of the settings, the
    i-th result carrying the name of the i-th entry; and a batch that
    [_run_checks] returns lists its results in the order of the checks. *)
Theorem run_all_checks_keeps_input_order :
  (forall (w : World) (settings : Settings) (s : state),
      exists rs s',
        run_all_checks w settings s = (Ok rs, s')
        /\ map r_name rs = map fst (services settings)
        /\ length rs = length (services settings)
        /\ forall (i : nat) (name : string) (cfg : ServiceCfg),
            nth_error (services settings) i = Some (name, cfg) ->
            exists r, nth_error rs i = Some r /\ r_name r = name)
  /\ (forall (env : App.Env) (w : App.World) (checks : list App.ServiceCheck)
             (h : App.Health),
        App.run_checks_of env w checks = Ok h ->
        map App.entry_name (App.health_services h) = map App.name checks).
Proof.
  split.
  - exact run_all_checks_ordered.
  - exact run_checks_of_Ok.
Qed.

Lemma run_all_checks_keeps_input_order_witness :
  map App.entry_name
    (match App._run_checks default_env fast_world with
     | Ok h => App.health_services h
     | Raise _ => []
     end)
  = ["workbench"; "tes"; "toolserver"; "model-registry"; "lims-x"; "mysql";
     "redis"].
Proof.
  destruct (App._run_checks default_env fast_world) as [h|e] eqn:R;
    [|discriminate R].
  exact (proj2 run_all_checks_keeps_input_order default_env fast_world
           (App._checks default_env) h R).
Defined.

(** ** C2 *)

(** C2, as stated, fails on [_run_checks]: with the default environment and
    one probe still pending at the batch deadline, no result is returned;
    the whole batch raises [TimeoutError]. *)
Lemma batch_deadline_loses_every_result :
  Exists (fun c => App.pending slow_world c = true) (App._checks default_env)
  /\ App._run_checks default_env slow_world
     = Raise (Exn "TimeoutError" EmptyString)
  /\ ~ (exists h, App._run_checks default_env slow_world = Ok h).
Proof.
  split; [|split].
  - apply Exists_cons_tl, Exists_cons_hd. reflexivity.
  - reflexivity.
  - intros (h & H). discriminate H.
Qed.

(** C2, amended: [run_all_checks] has no batch deadline and returns one
    result per entry whatever the probes meet, a probe that fails or runs
    into its own time-out giving DOWN with the text of the error;
    [_run_checks] returns one result per check, in order, when every probe
    has finished by the batch deadline, and raises [TimeoutError] for the
    whole batch when one has not. *)
Theorem batch_deadline_policy :
  (forall (w : World) (settings : Settings) (s : state),
      exists rs s',
        run_all_checks w settings s = (Ok rs, s')
        /\ length rs = length (services settings))
  /\ (forall (w : World) (name : string) (cfg : ServiceCfg) (s : state)
             (e : exn) (dt : N),
        Py.truthy (cfg_url cfg) = true ->
        http_get w (clock s) (Py.str_of_opt (cfg_url cfg)) (timeout_of cfg)
        = (Unreachable e, dt) ->
        exists r s',
          check_http w name cfg s = (Ok r, s')
          /\ r_status r = "DOWN" /\ r_message r = exn_message e)
  /\ (forall (w : World) (name : string) (host : option string) (port : Z)
             (kind : string) (s : state) (e : exn) (dt : N),
        Py.truthy host = true ->
        tcp_connect w (clock s) (Py.str_of_opt host) port = (Some e, dt) ->
        exists r s',
          check_tcp w name host port kind s = (Ok r, s')
          /\ r_status r = "DOWN" /\ r_message r = exn_message e)
  /\ (forall (env : App.Env) (w : App.World) (checks : list App.ServiceCheck),
        Forall (fun c => exists e, App.task_of w c = Ok (Some e)) checks ->
        exists h,
          App.run_checks_of env w checks = Ok h
          /\ map App.entry_name (App.health_services h) = map App.name checks)
  /\ (forall (env : App.Env) (w : App.World) (checks : list App.ServiceCheck),
        Forall (fun c => exists t, App.task_of w c = Ok t) checks ->
        Exists (fun c => App.pending w c = true) checks ->
        App.run_checks_of env w checks = Raise (Exn "TimeoutError" EmptyString)).
Proof.
  split; [|split; [|split; [|split]]].
  - intros w settings s.
    destruct (run_all_checks_total w settings s) as (rs & s' & R & Hn).
    exists rs, s'. split; [exact R|].
    rewrite <- (length_map r_name rs), Hn. apply length_map.
  - intros w name cfg s e dt Hu Hg.
    pose proof (check_http_run w name cfg s Hu) as R. simpl in R.
    rewrite Hg in R. eexists _, _. split; [exact R|]. split; reflexivity.
  - intros w name host port kind s e dt Hh Hc.
    pose proof (check_tcp_run w name host port kind s Hh) as R. simpl in R.
    rewrite Hc in R. eexists _, _. split; [exact R|]. split; reflexivity.
  - exact run_checks_of_finished.
  - exact run_checks_of_pending.
Qed.

Lemma batch_deadline_policy_witness :
  (exists r s',
      check_http dead_world "svc" (http_cfg "http://svc/health") s0 = (Ok r, s')
      /\ r_status r = "DOWN"
      /\ r_message r = "URLError: <urlopen error timed out>")
  /\ (exists r s',
      check_tcp dead_world "db" (Some "db") 3306 "mysql" s0 = (Ok r, s')
      /\ r_status r = "DOWN" /\ r_message r = "TimeoutError: timed out")
  /\ (exists h,
      App.run_checks_of default_env fast_world (App._checks default_env) = Ok h
      /\ map App.entry_name (App.health_services h)
         = map App.name (App._checks default_env))
  /\ App.run_checks_of default_env slow_world (App._checks default_env)
     = Raise (Exn "TimeoutError" EmptyString).
Proof.
  destruct batch_deadline_policy as (_ & Hhttp & Htcp & Hfin & Hpend).
  split; [|split; [|split]].
  - apply (Hhttp dead_world "svc" (http_cfg "http://svc/health") s0
             (Exn "URLError" "<urlopen error timed out>") 2000000%N);
      reflexivity.
  - apply (Htcp dead_world "db" (Some "db") 3306 "mysql" s0
             (Exn "TimeoutError" "timed out") 2000000%N); reflexivity.
  - apply Hfin. repeat constructor; eexists; reflexivity.
  - apply Hpend.
    + repeat constructor; eexists; reflexivity.
    + apply Exists_cons_tl, Exists_cons_hd. reflexivity.
Defined.

(** ** C4 *)

(** C4: for a URL whose server answers 404 the probe returns DOWN with
    the text of the [HTTPError] that [urlopen] raises, where the claim
    asks for WARN with [HTTP 404].  The probe always returns one result
    and lets no exception escape; its latency, when it has one, is not
    negative; a failure of the transport gives DOWN with the class and
    the text of the error; but its status is never WARN, and UP only for
    a status in 200-299: the branch that builds the WARN result is
    reached only with a status that [urlopen] returned. *)
Theorem check_http_answered_404_is_down :
  check_http world_404 "svc" (http_cfg "http://svc/missing") s0
  = (Ok {| r_name := "svc"; r_type := "http";
           r_target := "http://svc/missing"; r_status := "DOWN";
           r_latency_ms := Some 3;
           r_message := "HTTPError: HTTP Error 404: Not Found" |},
     State 3000 [IoUrlopen "http://svc/missing"])
  /\ (forall (w : World) (name : string) (cfg : ServiceCfg) (s : state),
        exists r s',
          check_http w name cfg s = (Ok r, s')
          /\ r_status r <> "WARN"
          /\ (forall l, r_latency_ms r = Some l -> 0 <= l)
          /\ (r_status r = "UP" ->
              exists code dt reason,
                http_get w (clock s) (Py.str_of_opt (cfg_url cfg))
                  (timeout_of cfg) = (Answered code reason, dt)
                /\ 200 <= code < 300
                /\ r_message r = "HTTP " ++ Py.str_of_int code)
          /\ (forall e dt,
                Py.truthy (cfg_url cfg) = true ->
                http_get w (clock s) (Py.str_of_opt (cfg_url cfg))
                  (timeout_of cfg) = (Unreachable e, dt) ->
                r_status r = "DOWN"
                /\ r_message r = exn_class e ++ ": " ++ exn_text e)).
Proof.
  split; [reflexivity|].
  intros w name cfg s.
  destruct (Py.truthy (cfg_url cfg)) eqn:H.
  - pose proof (check_http_run w name cfg s H) as R. simpl in R.
    destruct (http_get w (clock s) _ (timeout_of cfg)) as [reply dt].
    eexists _, _. split; [exact R|].
    assert (L : forall l,
               Some (elapsed_ms (clock s) (clock s + Z.of_N dt)) = Some l ->
               0 <= l)
      by (intros l [= <-]; apply elapsed_ms_nonneg).
    destruct reply as [code reason|e]; simpl.
    + destruct ((200 <=? code) && (code <? 300)) eqn:E; simpl.
      * split; [discriminate|]. split; [exact L|]. split.
        -- intros _. exists code, dt, reason.
           apply andb_prop in E as [Hlo Hhi].
           apply Z.leb_le in Hlo. apply Z.ltb_lt in Hhi.
           repeat split; auto.
        -- intros e dt' _. discriminate.
      * split; [discriminate|]. split; [exact L|]. split; [discriminate|].
        intros e dt' _. discriminate.
    + split; [discriminate|]. split; [exact L|]. split; [discriminate|].
      intros e' dt' _ [= <- _]. split; reflexivity.
  - rewrite (check_http_missing_url w name cfg s H).
    eexists _, _. split; [reflexivity|]. simpl.
    split; [discriminate|]. split; [discriminate|]. split; [discriminate|].
    intros e dt. discriminate.
Qed.

(** ** C5 *)

(** C5, as stated, fails for the disk probe: a disk check without a path
    yields no result at all. *)
Lemma disk_check_without_path_yields_nothing :
  run_disk_checks world_404
    {| services := []; disk_checks := [disk_cfg None 10] |} s0
  = (Ok [], s0).
Proof. reflexivity. Qed.

(** C5, amended: an HTTP check without a URL and a TCP check without a
    host perform no I/O and yield one result, DOWN with a null latency
    and a message naming the missing field; a disk check without a path
    performs no I/O and is skipped, yielding no result; the dispatcher
    yields exactly one result for every service entry, and the disk probe
    one for every disk check that has a path. *)
Theorem missing_field_policy (w : World) (s : state) :
  (forall (name : string) (cfg : ServiceCfg),
      Py.truthy (cfg_url cfg) = false ->
      check_http w name cfg s
      = (Ok {| r_name := name; r_type := "http"; r_target := "-";
               r_status := "DOWN"; r_latency_ms := None;
               r_message := "Missing 'url' in config" |}, s))
  /\ (forall (name : string) (host : option string) (port : Z) (kind : string),
        Py.truthy host = false ->
        check_tcp w name host port kind s
        = (Ok {| r_name := name; r_type := kind;
                 r_target := Py.str_of_opt host ++ ":" ++ Py.str_of_int port;
                 r_status := "DOWN"; r_latency_ms := None;
                 r_message := "Missing host" |}, s))
  /\ (forall (cfg : DiskCfg) (rest : list DiskCfg) (results : list CheckResult),
        Py.truthy (cfg_path cfg) = false ->
        run_disk_checks_loop w (cfg :: rest) results s
        = run_disk_checks_loop w rest results s)
  /\ (forall (name : string) (cfg : ServiceCfg),
        exists r s', dispatch w name cfg s = (Ok r, s') /\ r_name r = name)
  /\ (forall (cfg : DiskCfg) (rest : list DiskCfg) (results : list CheckResult),
        Py.truthy (cfg_path cfg) = true ->
        exists r s',
          run_disk_checks_loop w (cfg :: rest) results s
          = run_disk_checks_loop w rest (results ++ [r]) s'
          /\ up_or_warn r /\ r_latency_ms r = None).
Proof.
  split; [|split; [|split; [|split]]].
  - intros name cfg H. apply check_http_missing_url, H.
  - intros name host port kind H. apply check_tcp_missing_host, H.
  - intros cfg rest results H. simpl. rewrite H. reflexivity.
  - intros name cfg. apply dispatch_total.
  - intros cfg rest results H. simpl. rewrite H. simpl.
    eexists _, _. split.
    + unfold bind. rewrite disk_check_run. reflexivity.
    + split; [apply disk_result_up_or_warn|].
      destruct (statvfs w (clock s) _); reflexivity.
Qed.

Lemma missing_field_policy_witness :
  check_http dead_world "api" cfg_none s0
  = (Ok {| r_name := "api"; r_type := "http"; r_target := "-";
           r_status := "DOWN"; r_latency_ms := None;
           r_message := "Missing 'url' in config" |}, s0)
  /\ check_tcp dead_world "db" None 3306 "mysql" s0
     = (Ok {| r_name := "db"; r_type := "mysql"; r_target := "None:3306";
              r_status := "DOWN"; r_latency_ms := None;
              r_message := "Missing host" |}, s0)
  /\ run_disk_checks_loop dead_world [disk_cfg None 10] [] s0 = (Ok [], s0)
  /\ (exists r s',
        run_disk_checks_loop dead_world [disk_cfg (Some "/data") 10] [] s0
        = run_disk_checks_loop dead_world [] [r] s'
        /\ up_or_warn r /\ r_latency_ms r = None).
Proof.
  destruct (missing_field_policy dead_world s0)
    as (Hhttp & Htcp & Hskip & _ & Hdisk).
  split; [|split; [|split]].
  - apply Hhttp. reflexivity.
  - apply (Htcp "db" None 3306 "mysql"). reflexivity.
  - rewrite (Hskip (disk_cfg None 10) [] []); reflexivity.
  - apply (Hdisk (disk_cfg (Some "/data") 10) [] []). reflexivity.
Defined.

(** ** C6 *)

(** C6: for a path the file system can read and a threshold that is a
    number, the disk probe yields one result whose free percentage is
    [free / total * 100], and zero when the total is zero, with status UP
    when the percentage is at least the threshold and WARN otherwise; when
    reading the path fails the result is WARN and its message carries the
    text of the error; no disk result has status DOWN. *)
Theorem disk_probe_verdict :
  (forall (w : World) (path : string) (warn : Py.float) (s : state)
          (u : usage),
      statvfs w (clock s) path = Ok u ->
      Py.is_nan warn = false ->
      exists r s',
        disk_check w path warn s = (Ok r, s')
        /\ (total u = 0 -> free_pct u = S754_zero false)
        /\ (total u <> 0 ->
            free_pct u
            = Py.fmul (Py.int_truediv (free u) (total u)) (Py.float_of_int 100))
        /\ r_status r = (if Py.fle warn (free_pct u) then "UP" else "WARN")
        /\ r_type r = "disk" /\ r_target r = path)
  /\ (forall (w : World) (path : string) (warn : Py.float) (s : state)
             (e : exn),
        statvfs w (clock s) path = Raise e ->
        exists r s',
          disk_check w path warn s = (Ok r, s')
          /\ r_status r = "WARN"
          /\ r_message r = exn_class e ++ ": " ++ exn_text e)
  /\ (forall (w : World) (settings : Settings) (s : state),
        exists rs s',
          run_disk_checks w settings s = (Ok rs, s')
          /\ Forall (fun r => r_status r <> "DOWN") rs).
Proof.
  split; [|split].
  - intros w path warn s u Hu Hw.
    eexists _, _. split; [apply disk_check_run|].
    rewrite Hu. simpl. split; [|split; [|split; [|split]]].
    + intros H0. unfold free_pct. rewrite H0. reflexivity.
    + intros H0. unfold free_pct.
      apply Z.eqb_neq in H0. rewrite H0. reflexivity.
    + unfold disk_verdict.
      rewrite (flt_negb_fle (free_pct u) warn (free_pct_number u) Hw).
      destruct (Py.fle warn (free_pct u)); reflexivity.
    + reflexivity.
    + reflexivity.
  - intros w path warn s e He.
    eexists _, _. split; [apply disk_check_run|].
    rewrite He. simpl. split; reflexivity.
  - intros w settings s.
    destruct (run_disk_checks_total w settings s) as (rs & s' & R & F).
    exists rs, s'. split; [exact R|].
    apply (Forall_impl _ (P := up_or_warn)); [|exact F].
    intros r [H|H]; rewrite H; discriminate.
Qed.

Lemma disk_probe_verdict_witness :
  (exists r s',
      disk_check world_404 "/" (Py.float_of_int 29) s0 = (Ok r, s')
      /\ r_status r = "WARN" /\ r_type r = "disk" /\ r_target r = "/")
  /\ (exists r s',
        disk_check dead_world "/nowhere" (Py.float_of_int 10) s0 = (Ok r, s')
        /\ r_status r = "WARN"
        /\ r_message r
           = "FileNotFoundError: [Errno 2] No such file or directory: '/nowhere'").
Proof.
  destruct disk_probe_verdict as (Hread & Hfail & _).
  split.
  - destruct (Hread world_404 "/" (Py.float_of_int 29) s0 (Usage 1000 710 290)
                eq_refl eq_refl) as (r & s' & R & _ & _ & Hs & Ht & Hp).
    exists r, s'. repeat split; assumption.
  - apply (Hfail dead_world "/nowhere" (Py.float_of_int 10) s0
             (Exn "FileNotFoundError"
                "[Errno 2] No such file or directory: '/nowhere'")).
    reflexivity.
Defined.

(** The rounding of the quotient is visible at the threshold: 290 bytes
    free of 1000 is 28.999999999999996 percent, below a threshold of 29. *)
Example free_pct_rounds :
  Py.flt (free_pct (Usage 1000 710 290)) (Py.float_of_int 29) = true
  /\ Py.format_1f (free_pct (Usage 1000 710 290)) = "29.0".
Proof. split; reflexivity. Qed.

(** A threshold that is not a number compares false with every
    percentage, in both directions; the probe then answers UP. *)
Example nan_threshold :
  disk_verdict (free_pct (Usage 1000 710 290)) S754_nan = ("UP", "29.0% free")
  /\ Py.fle S754_nan (free_pct (Usage 1000 710 290)) = false.
Proof. split; reflexivity. Qed.

(** ** C7 *)

Lemma repr_char_plain (c : ascii) :
  plain_char c = true ->
  Py.repr_char "'" c = String c EmptyString /\ Ascii.eqb "'" c = false.
Proof.
  destruct c as [[] [] [] [] [] [] [] []]; vm_compute;
    intros H; try discriminate H; split; reflexivity.
Qed.

Lemma repr_plain (s : string) :
  plain s = true -> Py.repr s = "'" ++ s ++ "'".
Proof.
  intros H.
  assert (B : Py.repr_body "'" s = s /\ Py.mem_char "'" s = false).
  { induction s as [|c s IH]; [split; reflexivity|].
    cbn [plain] in H. apply andb_prop in H as [Hc Hs].
    cbn [Py.repr_body Py.mem_char].
    destruct (repr_char_plain c Hc) as [-> ->].
    destruct (IH Hs) as [-> ->]. split; reflexivity. }
  destruct B as [B Hq].
  unfold Py.repr. rewrite Hq. simpl. rewrite B. reflexivity.
Qed.

(** C7: for an entry whose kind the dispatcher does not recognize, the
    dispatcher performs no I/O and returns one result: WARN, a null
    latency, as type the kind (or [unknown] when the kind is empty) and a
    message that names the kind; the result is listed by
    [run_all_checks] at the place of the entry. *)
Theorem unknown_kind_yields_warn (w : World) (name : string)
    (cfg : ServiceCfg) (s : state)
    (H : recognized (ctype_of cfg) = false) :
  exists r,
    dispatch w name cfg s = (Ok r, s)
    /\ r_name r = name
    /\ r_status r = "WARN"
    /\ r_latency_ms r = None
    /\ (ctype_of cfg = EmptyString -> r_type r = "unknown")
    /\ (ctype_of cfg <> EmptyString -> r_type r = ctype_of cfg)
    /\ r_message r = "Unknown check type: " ++ Py.repr (ctype_of cfg)
    /\ (plain (ctype_of cfg) = true ->
        r_message r = "Unknown check type: '" ++ ctype_of cfg ++ "'")
    /\ (forall (before after : list (string * ServiceCfg)) (s1 : state),
          exists rs s',
            run_all_checks w
              {| services := before ++ (name, cfg) :: after;
                 disk_checks := [] |} s1
            = (Ok rs, s')
            /\ exists r', nth_error rs (length before) = Some r'
                          /\ r_name r' = name).
Proof.
  exists (unknown_result name cfg).
  split; [apply dispatch_unknown, H|].
  repeat split.
  - simpl. intros ->. reflexivity.
  - simpl. destruct (ctype_of cfg); [congruence | reflexivity].
  - simpl. intros P. rewrite (repr_plain _ P). reflexivity.
  - intros before after s1.
    destruct (run_all_checks_ordered w
                {| services := before ++ (name, cfg) :: after;
                   disk_checks := [] |} s1)
      as (rs & s' & R & _ & _ & Hnth).
    exists rs, s'. split; [exact R|].
    apply (Hnth (length before) name cfg). simpl.
    rewrite nth_error_app2, Nat.sub_diag; [reflexivity | lia].
Qed.

Lemma unknown_kind_yields_warn_witness :
  exists r,
    dispatch dead_world "x" (with_type cfg_none (Some "weird")) s0 = (Ok r, s0)
    /\ r_name r = "x" /\ r_type r = "weird" /\ r_status r = "WARN"
    /\ r_latency_ms r = None
    /\ r_message r = "Unknown check type: 'weird'".
Proof.
  destruct (unknown_kind_yields_warn dead_world "x"
              (with_type cfg_none (Some "weird")) s0 eq_refl)
    as (r & R & Hn & Hs & Hl & _ & Ht & _ & Hm & _).
  exists r. repeat split; try assumption.
  - apply Ht. discriminate.
  - apply Hm. reflexivity.
Defined.

(** ** C9 *)

(** C9, as stated, fails: for an entry of type [tcp] with a host, on a
    network that accepts the connection, the dispatcher makes no
    connection and returns the WARN result of an unknown kind, where the
    TCP probe would have returned UP. *)
Lemma tcp_kind_is_not_dispatched :
  dispatch world_404 "db" (tcp_cfg "tcp" "db.internal" (Some 5432)) s0
  = (Ok {| r_name := "db"; r_type := "tcp"; r_target := "db.internal:5432";
           r_status := "WARN"; r_latency_ms := None;
           r_message := "Unknown check type: 'tcp'" |}, s0)
  /\ check_tcp world_404 "db" (Some "db.internal") 5432 "tcp" s0
     = (Ok {| r_name := "db"; r_type := "tcp"; r_target := "db.internal:5432";
              r_status := "UP"; r_latency_ms := Some 1;
              r_message := "TCP connect ok" |},
        State 1000 [IoConnect "db.internal" 5432]).
Proof. split; reflexivity. Qed.

(** C9, amended: the dispatcher does not recognize the kind [tcp]; such an
    entry gets the WARN result of an unknown kind, with type [tcp], and no
    connection is made.  The TCP probe backs the kinds [mysql] and [redis]
    only: with a host present it makes one connection and returns UP with
    [TCP connect ok] when it succeeds and DOWN with the text of the error
    when it fails. *)
Theorem tcp_probe_backs_mysql_and_redis (w : World) (name : string)
    (cfg : ServiceCfg) (s : state) :
  (ctype_of cfg = "tcp" ->
   dispatch w name cfg s = (Ok (unknown_result name cfg), s)
   /\ r_type (unknown_result name cfg) = "tcp"
   /\ r_status (unknown_result name cfg) = "WARN"
   /\ r_message (unknown_result name cfg) = "Unknown check type: 'tcp'")
  /\ (ctype_of cfg = "mysql" \/ ctype_of cfg = "redis" ->
      Py.truthy (cfg_host cfg) = true ->
      let host := Py.str_of_opt (cfg_host cfg) in
      let port := port_or cfg (if String.eqb (ctype_of cfg) "mysql"
                               then 3306 else 6379) in
      exists r dt,
        dispatch w name cfg s = (Ok r, after s (IoConnect host port) dt)
        /\ r_name r = name
        /\ r_type r = ctype_of cfg
        /\ (fst (tcp_connect w (clock s) host port) = None ->
            r_status r = "UP" /\ r_message r = "TCP connect ok")
        /\ (forall e, fst (tcp_connect w (clock s) host port) = Some e ->
            r_status r = "DOWN" /\ r_message r = exn_message e)).
Proof.
  split.
  - intros H. split; [apply dispatch_unknown; rewrite H; reflexivity|].
    unfold unknown_result. simpl. rewrite H. repeat split; reflexivity.
  - intros K Hh host port.
    assert (D : dispatch w name cfg
                = check_tcp w name (cfg_host cfg) port (ctype_of cfg)).
    { unfold port. destruct K as [K|K]; rewrite K.
      - apply dispatch_mysql, K.
      - apply dispatch_redis, K. }
    rewrite D.
    pose proof (check_tcp_run w name (cfg_host cfg) port (ctype_of cfg) s Hh)
      as R. simpl in R. fold host in R.
    destruct (tcp_connect w (clock s) host port) as [failure dt].
    exists (tcp_result name host port (ctype_of cfg)
              (elapsed_ms (clock s) (clock s + Z.of_N dt)) failure), dt.
    split; [exact R|].
    destruct failure as [e|]; simpl; (split; [reflexivity|]);
      (split; [reflexivity|]); split.
    + discriminate.
    + intros e' [= <-]. split; reflexivity.
    + intros _. split; reflexivity.
    + discriminate.
Qed.

Lemma tcp_probe_backs_mysql_and_redis_witness :
  dispatch world_404 "db" (tcp_cfg "TCP" "db.internal" (Some 5432)) s0
  = (Ok (unknown_result "db" (tcp_cfg "TCP" "db.internal" (Some 5432))), s0)
  /\ (exists r dt,
        dispatch world_404 "cache" (tcp_cfg "redis" "redis" None) s0
        = (Ok r, after s0 (IoConnect "redis" 6379) dt)
        /\ r_status r = "UP" /\ r_message r = "TCP connect ok")
  /\ (exists r dt,
        dispatch dead_world "db" (tcp_cfg "mysql" "mysql" None) s0
        = (Ok r, after s0 (IoConnect "mysql" 3306) dt)
        /\ r_status r = "DOWN"
        /\ r_message r = "TimeoutError: timed out").
Proof.
  split; [|split].
  - apply (proj1 (tcp_probe_backs_mysql_and_redis world_404 "db"
                    (tcp_cfg "TCP" "db.internal" (Some 5432)) s0)).
    reflexivity.
  - destruct (proj2 (tcp_probe_backs_mysql_and_redis world_404 "cache"
                       (tcp_cfg "redis" "redis" None) s0)
                (or_intror eq_refl) eq_refl)
      as (r & dt & R & _ & _ & Hup & _).
    exists r, dt. split; [exact R|]. apply Hup. reflexivity.
  - destruct (proj2 (tcp_probe_backs_mysql_and_redis dead_world "db"
                       (tcp_cfg "mysql" "mysql" None) s0)
                (or_introl eq_refl) eq_refl)
      as (r & dt & R & _ & _ & _ & Hdown).
    exists r, dt. split; [exact R|].
    apply (Hdown (Exn "TimeoutError" "timed out")). reflexivity.
Defined.

(** ** C10 *)

Lemma lower_char_idempotent (c : ascii) :
  Py.lower_char (Py.lower_char c) = Py.lower_char c.
Proof. destruct c as [[] [] [] [] [] [] [] []]; reflexivity. Qed.

Lemma lower_idempotent (s : string) : Py.lower (Py.lower s) = Py.lower s.
Proof.
  induction s as [|c s IH]; simpl; [reflexivity|].
  rewrite lower_char_idempotent, IH. reflexivity.
Qed.

Lemma ctype_of_lower (cfg : ServiceCfg) (t : string) :
  ctype_of (with_type cfg (Some (Py.lower t))) = ctype_of (with_type cfg (Some t)).
Proof.
  unfold ctype_of. simpl. destruct t as [|c t]; [reflexivity|].
  simpl. rewrite lower_char_idempotent, lower_idempotent. reflexivity.
Qed.

(** C10: the dispatcher tests the type in lower case, so an entry is
    dispatched as the entry with its type lower-cased is ([HTTP] as
    [http], [MySQL] as [mysql]); an entry whose type is absent or empty
    gets the WARN result of an unknown kind, with type [unknown]; a
    missing port is 3306 for [mysql] and 6379 for [redis]. *)
Theorem dispatch_ignores_case (w : World) (name : string) (cfg : ServiceCfg) :
  (forall t : string,
      dispatch w name (with_type cfg (Some t))
      = dispatch w name (with_type cfg (Some (Py.lower t))))
  /\ dispatch w name (with_type cfg (Some "HTTP"))
     = check_http w name (with_type cfg (Some "http"))
  /\ dispatch w name (with_type cfg (Some "MySQL"))
     = check_tcp w name (cfg_host cfg) (port_or cfg 3306) "mysql"
  /\ (forall s : state,
        cfg_type cfg = None \/ cfg_type cfg = Some EmptyString ->
        exists r,
          dispatch w name cfg s = (Ok r, s)
          /\ r_status r = "WARN" /\ r_type r = "unknown"
          /\ r_latency_ms r = None)
  /\ (cfg_port cfg = None ->
      (ctype_of cfg = "mysql" ->
       dispatch w name cfg = check_tcp w name (cfg_host cfg) 3306 "mysql")
      /\ (ctype_of cfg = "redis" ->
          dispatch w name cfg = check_tcp w name (cfg_host cfg) 6379 "redis")).
Proof.
  split; [|split; [|split; [|split]]].
  - intros t. unfold dispatch. rewrite ctype_of_lower.
    assert (E : forall c, check_http w name (with_type cfg (Some c))
                          = check_http w name (with_type cfg (Some t)))
      by reflexivity.
    rewrite (E (Py.lower t)). reflexivity.
  - reflexivity.
  - reflexivity.
  - intros s H. exists (unknown_result name cfg).
    assert (C : ctype_of cfg = EmptyString)
      by (unfold ctype_of; destruct H as [-> | ->]; reflexivity).
    split; [apply dispatch_unknown; rewrite C; reflexivity|].
    unfold unknown_result. simpl. rewrite C. repeat split; reflexivity.
  - intros P. split; intros K.
    + rewrite (dispatch_mysql w name cfg K). unfold port_or. rewrite P.
      reflexivity.
    + rewrite (dispatch_redis w name cfg K). unfold port_or. rewrite P.
      reflexivity.
Qed.

Lemma dispatch_ignores_case_witness :
  (exists r,
      dispatch dead_world "x" cfg_none s0 = (Ok r, s0)
      /\ r_status r = "WARN" /\ r_type r = "unknown" /\ r_latency_ms r = None)
  /\ dispatch world_404 "db" (tcp_cfg "MYSQL" "mysql" None)
     = check_tcp world_404 "db" (Some "mysql") 3306 "mysql"
  /\ dispatch world_404 "cache" (tcp_cfg "Redis" "redis" None)
     = check_tcp world_404 "cache" (Some "redis") 6379 "redis".
Proof.
  split; [|split].
  - destruct (dispatch_ignores_case dead_world "x" cfg_none)
      as (_ & _ & _ & H & _).
    apply H. left. reflexivity.
  - destruct (dispatch_ignores_case world_404 "db" (tcp_cfg "MYSQL" "mysql" None))
      as (_ & _ & _ & _ & H).
    apply H; reflexivity.
  - destruct (dispatch_ignores_case world_404 "cache"
                (tcp_cfg "Redis" "redis" None))
      as (_ & _ & _ & _ & H).
    apply H; reflexivity.
Defined.

(** ** A whole run *)

(** One service up, the database unreachable, the disk below its
    threshold: the overall status is DOWN. *)
Example summary_scenario :
  summary mixed_world scenario s0
  = (Ok {| overall_status := "DOWN";
           generated_at := "2026-01-01T00:00:00+00:00";
           report_services :=
             [{| r_name := "svc-a"; r_type := "http";
                 r_target := "http://ok-stub"; r_status := "UP";
                 r_latency_ms := Some 12; r_message := "HTTP 200" |};
              {| r_name := "db"; r_type := "mysql";
                 r_target := "unreachable:5432"; r_status := "DOWN";
                 r_latency_ms := Some 1;
                 r_message :=
                   "ConnectionRefusedError: [Errno 111] Connection refused" |}];
           report_disk :=
             [{| r_name := "disk:/"; r_type := "disk"; r_target := "/";
                 r_status := "WARN"; r_latency_ms := None;
                 r_message := "Low disk: 29.0% free (< 99.0%)" |}] |},
     State 13000
       [IoUrlopen "http://ok-stub"; IoConnect "unreachable" 5432;
        IoDiskUsage "/"]).
Proof. reflexivity. Qed.

(** * Further properties *)

(** ** One probe *)

Lemma elapsed_ms_bound (t : Z) (dt : N) :
  1000 * elapsed_ms t (t + Z.of_N dt) <= (t + Z.of_N dt) - t.
Proof.
  unfold elapsed_ms.
  replace (t + Z.of_N dt - t) with (Z.of_N dt) by lia.
  rewrite Z.quot_div_nonneg by lia.
  apply Z.mul_div_le. lia.
Qed.

Lemma latency_facts (t : Z) (dt : N) (l : Z) :
  Some (elapsed_ms t (t + Z.of_N dt)) = Some l ->
  0 <= l /\ 1000 * l <= (t + Z.of_N dt) - t.
Proof.
  intros [= <-]. split; [apply elapsed_ms_nonneg | apply elapsed_ms_bound].
Qed.

Lemma probed_facts (item : string * ServiceCfg) (r : CheckResult)
    (s : state) (call : io_call) (dt : N) :
  r_name r = fst item ->
  io_of item = [call] ->
  r_latency_ms r = Some (elapsed_ms (clock s) (clock s + Z.of_N dt)) ->
  recognized (ctype_of (snd item)) = true ->
  r_status r = "UP" \/ r_status r = "DOWN" ->
  probe_facts item r s (after s call dt).
Proof.
  intros Hn Hio Hl Hk Hs. unfold probe_facts. rewrite Hio, Hl. simpl.
  split; [exact Hn|]. split; [reflexivity|]. split; [lia|].
  split; [split; discriminate|]. split; [apply latency_facts|].
  split; [congruence | intros _; exact Hs].
Qed.

Lemma skipped_facts (item : string * ServiceCfg) (r : CheckResult)
    (s : state) :
  r_name r = fst item ->
  io_of item = [] ->
  r_latency_ms r = None ->
  (if recognized (ctype_of (snd item)) then r_status r = "DOWN"
   else r_status r = "WARN") ->
  probe_facts item r s s.
Proof.
  intros Hn Hio Hl Hs. unfold probe_facts. rewrite Hio, Hl, app_nil_r.
  split; [exact Hn|]. split; [reflexivity|]. split; [lia|].
  split; [split; reflexivity|]. split; [discriminate|].
  destruct (recognized (ctype_of (snd item)));
    split; try discriminate; auto.
Qed.

Lemma io_of_http (name : string) (cfg : ServiceCfg) :
  ctype_of cfg = "http" ->
  io_of (name, cfg)
  = if Py.truthy (cfg_url cfg)
    then [IoUrlopen (Py.str_of_opt (cfg_url cfg))] else [].
Proof. unfold io_of. cbn [snd]. intros ->. reflexivity. Qed.

Lemma io_of_mysql (name : string) (cfg : ServiceCfg) :
  ctype_of cfg = "mysql" ->
  io_of (name, cfg)
  = if Py.truthy (cfg_host cfg)
    then [IoConnect (Py.str_of_opt (cfg_host cfg)) (port_or cfg 3306)] else [].
Proof. unfold io_of. cbn [snd]. intros ->. reflexivity. Qed.

Lemma io_of_redis (name : string) (cfg : ServiceCfg) :
  ctype_of cfg = "redis" ->
  io_of (name, cfg)
  = if Py.truthy (cfg_host cfg)
    then [IoConnect (Py.str_of_opt (cfg_host cfg)) (port_or cfg 6379)] else [].
Proof. unfold io_of. cbn [snd]. intros ->. reflexivity. Qed.

Lemma io_of_unknown (name : string) (cfg : ServiceCfg) :
  recognized (ctype_of cfg) = false -> io_of (name, cfg) = [].
Proof.
  unfold io_of, recognized. cbn [snd]. intros H.
  apply orb_false_elim in H as [H Hr].
  apply orb_false_elim in H as [Hh Hm].
  rewrite Hh, Hm, Hr. reflexivity.
Qed.

Lemma check_http_facts (w : World) (name : string) (cfg : ServiceCfg)
    (s : state) :
  ctype_of cfg = "http" ->
  exists r s',
    check_http w name cfg s = (Ok r, s') /\ probe_facts (name, cfg) r s s'.
Proof.
  intros K.
  assert (Hk : recognized (ctype_of cfg) = true) by (rewrite K; reflexivity).
  destruct (Py.truthy (cfg_url cfg)) eqn:H.
  - pose proof (check_http_run w name cfg s H) as R. simpl in R.
    destruct (http_get w (clock s) _ (timeout_of cfg)) as [reply dt].
    eexists _, _. split; [exact R|].
    apply probed_facts; cbn [fst snd]; [| | |exact Hk|].
    + destruct reply as [code reason|e]; simpl; [|reflexivity].
      destruct ((200 <=? code) && (code <? 300)); reflexivity.
    + rewrite (io_of_http name cfg K), H. reflexivity.
    + destruct reply as [code reason|e]; simpl; [|reflexivity].
      destruct ((200 <=? code) && (code <? 300)); reflexivity.
    + destruct reply as [code reason|e]; simpl; [|auto].
      destruct ((200 <=? code) && (code <? 300)); simpl; auto.
  - rewrite (check_http_missing_url w name cfg s H).
    eexists _, _. split; [reflexivity|].
    apply skipped_facts; cbn [fst snd]; [reflexivity| |reflexivity|].
    + rewrite (io_of_http name cfg K), H. reflexivity.
    + rewrite Hk. reflexivity.
Qed.

Lemma check_tcp_facts (w : World) (name : string) (cfg : ServiceCfg)
    (port : Z) (kind : string) (s : state) :
  recognized (ctype_of cfg) = true ->
  io_of (name, cfg)
  = (if Py.truthy (cfg_host cfg)
     then [IoConnect (Py.str_of_opt (cfg_host cfg)) port] else []) ->
  exists r s',
    check_tcp w name (cfg_host cfg) port kind s = (Ok r, s')
    /\ probe_facts (name, cfg) r s s'.
Proof.
  intros Hk Hio.
  destruct (Py.truthy (cfg_host cfg)) eqn:H.
  - pose proof (check_tcp_run w name (cfg_host cfg) port kind s H) as R.
    simpl in R.
    destruct (tcp_connect w (clock s) _ port) as [failure dt].
    eexists _, _. split; [exact R|].
    apply probed_facts; cbn [fst snd]; [| | |exact Hk|].
    + destruct failure; reflexivity.
    + exact Hio.
    + destruct failure; reflexivity.
    + destruct failure; simpl; auto.
  - rewrite (check_tcp_missing_host w name (cfg_host cfg) port kind s H).
    eexists _, _. split; [reflexivity|].
    apply skipped_facts; cbn [fst snd]; [reflexivity| |reflexivity|].
    + exact Hio.
    + rewrite Hk. reflexivity.
Qed.

Lemma dispatch_facts (w : World) (name : string) (cfg : ServiceCfg)
    (s : state) :
  exists r s',
    dispatch w name cfg s = (Ok r, s') /\ probe_facts (name, cfg) r s s'.
Proof.
  destruct (String.eqb (ctype_of cfg) "http") eqn:Eh.
  - apply String.eqb_eq in Eh. rewrite (dispatch_http w name cfg Eh).
    apply check_http_facts, Eh.
  - destruct (String.eqb (ctype_of cfg) "mysql") eqn:Em.
    + apply String.eqb_eq in Em. rewrite (dispatch_mysql w name cfg Em).
      apply check_tcp_facts; [rewrite Em; reflexivity|].
      apply io_of_mysql, Em.
    + destruct (String.eqb (ctype_of cfg) "redis") eqn:Er.
      * apply String.eqb_eq in Er. rewrite (dispatch_redis w name cfg Er).
        apply check_tcp_facts; [rewrite Er; reflexivity|].
        apply io_of_redis, Er.
      * assert (Hk : recognized (ctype_of cfg) = false)
          by (unfold recognized; rewrite Eh, Em, Er; reflexivity).
        rewrite (dispatch_unknown w name cfg s Hk).
        eexists _, _. split; [reflexivity|].
        apply skipped_facts; cbn [fst snd]; [reflexivity| |reflexivity|].
        -- apply io_of_unknown, Hk.
        -- rewrite Hk. reflexivity.
Qed.

Lemma probe_facts_result (item : string * ServiceCfg) (r : CheckResult)
    (s s' : state) :
  probe_facts item r s s' -> result_facts item r.
Proof.
  intros (Hn & _ & _ & Hl & Hp & Hu & Hk). unfold result_facts.
  split; [exact Hn|]. split; [exact Hl|].
  split; [intros l E; apply (Hp l E)|].
  destruct (recognized (ctype_of (snd item))).
  - destruct (Hk eq_refl) as [-> | ->]; split; auto;
      split; discriminate.
  - rewrite (Hu eq_refl). split; auto. split; reflexivity.
Qed.

Lemma total_latency_ms_app (rs rs' : list CheckResult) :
  total_latency_ms (rs ++ rs') = total_latency_ms rs + total_latency_ms rs'.
Proof. induction rs as [|r rs IH]; simpl; [reflexivity | rewrite IH; lia]. Qed.

Lemma run_all_checks_loop_facts (w : World)
    (items : list (string * ServiceCfg)) :
  forall (results : list CheckResult) (s : state),
  exists rs s',
    run_all_checks_loop w items results s = (Ok (results ++ rs)%list, s')
    /\ Forall2 result_facts items rs
    /\ log s' = (log s ++ flat_map io_of items)%list
    /\ clock s + 1000 * total_latency_ms rs <= clock s'.
Proof.
  induction items as [|[name cfg] rest IH]; intros results s;
    cbn [run_all_checks_loop flat_map].
  - exists [], s. rewrite !app_nil_r. cbn [total_latency_ms].
    repeat split; [constructor | lia].
  - destruct (dispatch_facts w name cfg s) as (r & s1 & Hd & Hf).
    destruct (IH (results ++ [r])%list s1) as (rs & s2 & Hl & HF & Hlog & Hc).
    exists (r :: rs), s2. split; [|split; [|split]].
    + unfold bind. rewrite Hd, Hl, <- app_assoc. reflexivity.
    + constructor; [exact (probe_facts_result _ _ _ _ Hf) | exact HF].
    + destruct Hf as (_ & Hlog1 & _). rewrite Hlog, Hlog1, app_assoc.
      reflexivity.
    + destruct Hf as (_ & _ & Hc1 & Hnone & Hsome & _).
      cbn [total_latency_ms].
      destruct (r_latency_ms r) as [l|].
      * destruct (Hsome l eq_refl) as [_ Hb]. lia.
      * lia.
Qed.

Lemma run_all_checks_facts (w : World) (settings : Settings) (s : state) :
  exists rs s',
    run_all_checks w settings s = (Ok rs, s')
    /\ Forall2 result_facts (services settings) rs
    /\ log s' = (log s ++ flat_map io_of (services settings))%list
    /\ clock s + 1000 * total_latency_ms rs <= clock s'.
Proof.
  unfold run_all_checks.
  destruct (run_all_checks_loop_facts w (services settings) [] s)
    as (rs & s' & H & F).
  exists rs, s'. split; [exact H | exact F].
Qed.

Lemma disk_result_facts_holds (path : string) (warn : Py.float)
    (answer : result usage) :
  disk_result_facts (disk_result path warn answer)
  /\ r_target (disk_result path warn answer) = path.
Proof.
  unfold disk_result_facts.
  destruct answer as [u|e]; simpl.
  - repeat split. unfold disk_verdict.
    destruct (Py.flt (free_pct u) warn); simpl; auto.
  - repeat split. auto.
Qed.

Lemma run_disk_checks_loop_facts (w : World) (disk_cfgs : list DiskCfg) :
  forall (results : list CheckResult) (s : state),
  exists rs s',
    run_disk_checks_loop w disk_cfgs results s = (Ok (results ++ rs)%list, s')
    /\ map r_target rs = disk_paths disk_cfgs
    /\ Forall disk_result_facts rs
    /\ log s' = (log s ++ map IoDiskUsage (disk_paths disk_cfgs))%list
    /\ clock s' = clock s.
Proof.
  induction disk_cfgs as [|cfg rest IH]; intros results s; simpl.
  - exists [], s. rewrite !app_nil_r. repeat split. constructor.
  - unfold disk_paths. simpl. fold (disk_paths rest).
    destruct (Py.truthy (cfg_path cfg)); simpl.
    + set (path := Py.str_of_opt (cfg_path cfg)).
      set (r := disk_result path (warn_of cfg) (statvfs w (clock s) path)).
      destruct (IH (results ++ [r])%list (after s (IoDiskUsage path) 0))
        as (rs & s2 & Hl & Ht & HF & Hlog & Hc).
      destruct (disk_result_facts_holds path (warn_of cfg)
                  (statvfs w (clock s) path)) as [Hr Htarget].
      exists (r :: rs), s2. split; [|split; [|split; [|split]]].
      * unfold bind. rewrite disk_check_run. fold r.
        rewrite Hl, <- app_assoc. reflexivity.
      * simpl. unfold r at 1. rewrite Htarget, Ht. reflexivity.
      * constructor; [exact Hr | exact HF].
      * rewrite Hlog. simpl. rewrite <- app_assoc. reflexivity.
      * rewrite Hc. simpl. lia.
    + apply IH.
Qed.

Lemma total_latency_ms_nonneg (items : list (string * ServiceCfg))
    (rs : list CheckResult) :
  Forall2 result_facts items rs -> 0 <= total_latency_ms rs.
Proof.
  induction 1 as [|item r items' rs' (_ & _ & Hl & _) _ IH];
    cbn [total_latency_ms]; [lia|].
  destruct (r_latency_ms r) as [l|]; [specialize (Hl l eq_refl)|]; lia.
Qed.

(** ** The dispatcher and the disk probe, as a whole *)

(** X1: [run_all_checks] makes at most one I/O call per entry, never a
    second attempt, and the calls are made in the order of the entries:
    the log grows by exactly the calls of the entries that have a
    recognized kind and their required field. *)
Theorem each_entry_probed_at_most_once (w : World) (settings : Settings)
    (s : state) :
  exists rs s',
    run_all_checks w settings s = (Ok rs, s')
    /\ log s' = (log s ++ flat_map io_of (services settings))%list
    /\ (forall item, length (io_of item) <= 1)%nat
    /\ (length (log s') <= length (log s) + length (services settings))%nat.
Proof.
  destruct (run_all_checks_facts w settings s) as (rs & s' & R & _ & L & _).
  assert (One : forall item, (length (io_of item) <= 1)%nat).
  { intros [name cfg]. unfold io_of. cbn [snd].
    destruct (String.eqb (ctype_of cfg) "http");
      [destruct (Py.truthy (cfg_url cfg)); simpl; lia|].
    destruct (String.eqb (ctype_of cfg) "mysql");
      [destruct (Py.truthy (cfg_host cfg)); simpl; lia|].
    destruct (String.eqb (ctype_of cfg) "redis");
      [destruct (Py.truthy (cfg_host cfg)); simpl; lia|].
    simpl. lia. }
  exists rs, s'. split; [exact R|]. split; [exact L|]. split; [exact One|].
  rewrite L, length_app. apply Nat.add_le_mono_l.
  clear R L. generalize (services settings) as items.
  induction items as [|item rest IH]; cbn [flat_map length]; [lia|].
  rewrite length_app. specialize (One item). lia.
Qed.

(** X2: in the results of [run_all_checks] the latency is null exactly
    for the entries for which no I/O call was made (unknown kind or
    missing field), and is never negative. *)
Theorem latency_null_iff_not_probed (w : World) (settings : Settings)
    (s : state) :
  exists rs s',
    run_all_checks w settings s = (Ok rs, s')
    /\ Forall2
         (fun item r =>
            (r_latency_ms r = None <-> io_of item = [])
            /\ forall l, r_latency_ms r = Some l -> 0 <= l)
         (services settings) rs.
Proof.
  destruct (run_all_checks_facts w settings s) as (rs & s' & R & F & _).
  exists rs, s'. split; [exact R|].
  eapply Forall2_impl; [|exact F].
  intros item r (_ & Hn & Hl & _). split; assumption.
Qed.

(** X3: the latencies that [run_all_checks] reports, added up, account
    for no more than the time that passed on the performance counter
    during the run. *)
Theorem latencies_fit_elapsed_time (w : World) (settings : Settings)
    (s : state) :
  exists rs s',
    run_all_checks w settings s = (Ok rs, s')
    /\ 0 <= total_latency_ms rs
    /\ 1000 * total_latency_ms rs <= clock s' - clock s.
Proof.
  destruct (run_all_checks_facts w settings s) as (rs & s' & R & F & _ & C).
  pose proof (total_latency_ms_nonneg _ _ F) as T.
  exists rs, s'. split; [exact R|]. split; [exact T | lia].
Qed.

(** X4: a result of [run_all_checks] has status WARN exactly when the kind
    of its entry is not recognized by the dispatcher; the HTTP and TCP
    probes give UP or DOWN only. *)
Theorem service_status_by_kind (w : World) (settings : Settings) (s : state) :
  exists rs s',
    run_all_checks w settings s = (Ok rs, s')
    /\ Forall2
         (fun item r =>
            (r_status r = "WARN" <-> recognized (ctype_of (snd item)) = false)
            /\ (r_status r = "UP" \/ r_status r = "WARN"
                \/ r_status r = "DOWN"))
         (services settings) rs.
Proof.
  destruct (run_all_checks_facts w settings s) as (rs & s' & R & F & _).
  exists rs, s'. split; [exact R|].
  eapply Forall2_impl; [|exact F].
  intros item r (_ & _ & _ & Hw & Hd). split; assumption.
Qed.


(** ** The summary *)

Lemma has_status_app (st : string) (rs rs' : list CheckResult) :
  has_status st (rs ++ rs') = has_status st rs || has_status st rs'.
Proof. unfold has_status. apply existsb_app. Qed.

Lemma has_status_false (st : string) (rs : list CheckResult) :
  Forall (fun r => r_status r <> st) rs -> has_status st rs = false.
Proof.
  induction 1 as [|r rs' H _ IH]; simpl; [reflexivity|].
  rewrite IH, orb_false_r. apply String.eqb_neq, H.
Qed.

Lemma has_status_true (st : string) (rs : list CheckResult) :
  has_status st rs = true <-> Exists (fun r => r_status r = st) rs.
Proof.
  unfold has_status. rewrite existsb_exists, Exists_exists.
  split; intros (r & Hin & H); exists r; split; auto;
    apply String.eqb_eq; exact H.
Qed.

Lemma all_up (rs : list CheckResult) :
  Forall (fun r => r_status r = "UP" \/ r_status r = "WARN"
                   \/ r_status r = "DOWN") rs ->
  (has_status "DOWN" rs = false /\ has_status "WARN" rs = false
   <-> Forall (fun r => r_status r = "UP") rs).
Proof.
  induction 1 as [|r rs' H _ IH]; simpl.
  - split; [constructor | split; reflexivity].
  - split.
    + intros [Hd Hw].
      apply orb_false_elim in Hd as [Hd Hd'].
      apply orb_false_elim in Hw as [Hw Hw'].
      constructor; [|apply IH; split; assumption].
      apply String.eqb_neq in Hd, Hw. destruct H as [H|[H|H]]; congruence.
    + intros F. inversion F as [|r' l Hr Hl]; subst.
      apply IH in Hl as [Hd Hw]. rewrite Hr, Hd, Hw. split; reflexivity.
Qed.

(** X6: in the report of [summary] the overall status is DOWN exactly
    when a service result is DOWN (a disk result never is), and UP exactly
    when every service result and every disk result is UP. *)
Theorem summary_overall_meaning (w : World) (settings : Settings) (s : state) :
  exists rep s',
    summary w settings s = (Ok rep, s')
    /\ (overall_status rep = "DOWN"
        <-> Exists (fun r => r_status r = "DOWN") (report_services rep))
    /\ (overall_status rep = "UP"
        <-> Forall (fun r => r_status r = "UP")
              (report_services rep ++ report_disk rep)).
Proof.
  destruct (run_all_checks_facts w settings s) as (rs & s1 & R & F & _).
  destruct (run_disk_checks_loop_facts w (disk_checks settings) [] s1)
    as (ds & s2 & D & _ & FD & _).
  fold (run_disk_checks w settings s1) in D. simpl in D.
  eexists _, _. split.
  { unfold summary, bind. rewrite R, D. reflexivity. }
  cbn [overall_status report_services report_disk].
  assert (Hds : has_status "DOWN" ds = false).
  { apply has_status_false. eapply Forall_impl; [|exact FD].
    intros r (_ & _ & _ & [H|H]); rewrite H; discriminate. }
  assert (Dom : Forall (fun r => r_status r = "UP" \/ r_status r = "WARN"
                                 \/ r_status r = "DOWN") (rs ++ ds)).
  { apply Forall_app. split.
    - clear R. induction F as [|item r items rs' (_ & _ & _ & _ & H) _ IH];
        constructor; assumption.
    - eapply Forall_impl; [|exact FD].
      intros r (_ & _ & _ & [H|H]); auto. }
  unfold overall_of. rewrite overall_loop_UP. split.
  - rewrite <- has_status_true, has_status_app, Hds, orb_false_r.
    destruct (has_status "DOWN" rs); [split; reflexivity|].
    split; [|discriminate].
    destruct (has_status "WARN" (rs ++ ds)); discriminate.
  - rewrite <- (all_up _ Dom).
    destruct (has_status "DOWN" (rs ++ ds)), (has_status "WARN" (rs ++ ds));
      split; try discriminate; try (intros [? ?]; discriminate); auto.
Qed.

(** X7: reducing two lists of results one after the other gives the
    higher of their two overall statuses, so the overall status of
    [summary] is the higher of the status of the services and the status
    of the disks, and further results never lower it. *)
Theorem overall_of_is_max_status (service_results disk_results
    : list CheckResult) :
  overall_of service_results disk_results
  = max_status (overall_loop "UP" service_results)
               (overall_loop "UP" disk_results)
  /\ (overall_loop "UP" service_results = "DOWN" ->
      overall_of service_results disk_results = "DOWN")
  /\ (overall_of service_results disk_results = "UP" ->
      overall_loop "UP" service_results = "UP"
      /\ overall_loop "UP" disk_results = "UP").
Proof.
  unfold overall_of. rewrite !overall_loop_UP, !has_status_app.
  destruct (has_status "DOWN" service_results),
    (has_status "DOWN" disk_results),
    (has_status "WARN" service_results),
    (has_status "WARN" disk_results); cbn;
    repeat split; try reflexivity; try discriminate.
Qed.

(** X8: [summary] probes the services first and the disks after them, each
    once and in the order of the settings; its list of service results is
    the one [run_all_checks] returns from the same state, and the time
    stamp is taken after the last probe. *)
Theorem summary_probes_services_then_disks (w : World) (settings : Settings)
    (s : state) :
  exists rep s1 s',
    summary w settings s = (Ok rep, s')
    /\ run_all_checks w settings s = (Ok (report_services rep), s1)
    /\ run_disk_checks w settings s1 = (Ok (report_disk rep), s')
    /\ log s'
       = (log s ++ flat_map io_of (services settings)
            ++ map IoDiskUsage (disk_paths (disk_checks settings)))%list
    /\ generated_at rep = utc_now w (clock s')
    /\ clock s <= clock s'.
Proof.
  destruct (run_all_checks_facts w settings s)
    as (rs & s1 & R & F & L & C).
  destruct (run_disk_checks_loop_facts w (disk_checks settings) [] s1)
    as (ds & s2 & D & _ & _ & LD & CD).
  fold (run_disk_checks w settings s1) in D. simpl in D.
  pose proof (total_latency_ms_nonneg _ _ F) as T.
  eexists _, s1, s2. split; [|split; [|split; [|split; [|split]]]].
  - unfold summary, bind. rewrite R, D. reflexivity.
  - exact R.
  - exact D.
  - rewrite LD, L, app_assoc. reflexivity.
  - reflexivity.
  - rewrite CD. lia.
Qed.

(** ** Loading the settings *)

(** X9: when the configuration file does not exist, or cannot be loaded,
    the routes [/summary] and [/services] raise the error, naming the
    path for a missing file, and no probe runs; the path is the value of
    [CONTROL_CENTER_CONFIG] when it is set, empty or not. *)
Theorem routes_fail_without_settings (h : Api.Host) (w : World) (s : state) :
  (Api.path_exists h (Api._default_config_path h) = false ->
   let e := Exn "FileNotFoundError"
              ("Control Center config not found: "
                 ++ Api._default_config_path h
                 ++ ". Mount it and/or set CONTROL_CENTER_CONFIG.") in
   Api.summary h w s = (Raise e, s) /\ Api.services h w s = (Raise e, s))
  /\ (forall e,
        Api.path_exists h (Api._default_config_path h) = true ->
        Api.safe_load h (Api._default_config_path h) = Raise e ->
        Api.summary h w s = (Raise e, s) /\ Api.services h w s = (Raise e, s))
  /\ (forall v, Api.environ h "CONTROL_CENTER_CONFIG" = Some v ->
                Api._default_config_path h = v)
  /\ (Api.environ h "CONTROL_CENTER_CONFIG" = None ->
      Api._default_config_path h = "/config/control_center.yaml").
Proof.
  split; [|split; [|split]].
  - intros H e.
    assert (L : Api.load_settings h = Raise e).
    { unfold Api.load_settings. rewrite H. reflexivity. }
    unfold Api.summary, Api.services, Api.lift, bind. rewrite L.
    split; reflexivity.
  - intros e H E.
    assert (L : Api.load_settings h = Raise e).
    { unfold Api.load_settings. rewrite H, E. reflexivity. }
    unfold Api.summary, Api.services, Api.lift, bind. rewrite L.
    split; reflexivity.
  - intros v E. unfold Api._default_config_path. rewrite E. reflexivity.
  - intros E. unfold Api._default_config_path. rewrite E. reflexivity.
Qed.

Lemma routes_fail_without_settings_witness :
  Api.summary bare_host world_404 s0
  = (Raise (Exn "FileNotFoundError"
              ("Control Center config not found: /config/control_center.yaml"
                 ++ ". Mount it and/or set CONTROL_CENTER_CONFIG.")), s0)
  /\ Api._default_config_path blank_host = "/etc/cc.yaml".
Proof.
  destruct (routes_fail_without_settings bare_host world_404 s0)
    as (Hmissing & _ & _ & _).
  destruct (routes_fail_without_settings blank_host world_404 s0)
    as (_ & _ & Hset & _).
  split.
  - apply Hmissing. reflexivity.
  - apply Hset. reflexivity.
Defined.



(** ** Targets of the asynchronous dispatcher *)

Lemma int_of_str_of_int (n : Z) : Py.int_of_str (Py.str_of_int n) = Some n.
Proof.
  unfold Py.int_of_str, Py.str_of_int.
  rewrite NilZero.isi.
  - simpl. rewrite DecimalZ.of_to. reflexivity.
  - destruct n as [|p|p]; simpl; try discriminate.
    intros [= E]. exact (Unsigned.to_uint_nonnil p E).
  - destruct n as [|p|p]; simpl; try discriminate.
    intros [= E]. exact (Unsigned.to_uint_nonnil p E).
Qed.

Lemma digits_no_colon (d : Decimal.uint) :
  Py.mem_char ":" (NilEmpty.string_of_uint d) = false.
Proof. induction d; simpl; auto. Qed.

Lemma str_of_int_no_colon (n : Z) : Py.mem_char ":" (Py.str_of_int n) = false.
Proof.
  unfold Py.str_of_int, NilZero.string_of_int, NilZero.string_of_uint.
  destruct (Z.to_int n) as [d|d]; destruct d; simpl;
    try reflexivity; apply digits_no_colon.
Qed.

Lemma mem_char_colons (s : string) :
  Py.mem_char ":" s = false <-> colons s = 0%nat.
Proof.
  induction s as [|c s IH]; cbn [Py.mem_char colons]; [tauto|].
  rewrite (Ascii.eqb_sym ":" c).
  destruct (Ascii.eqb c ":"); simpl; [split; discriminate | exact IH].
Qed.

Lemma colons_app (a b : string) : colons (a ++ b) = (colons a + colons b)%nat.
Proof.
  induction a as [|c a IH]; cbn [append colons]; [reflexivity|].
  rewrite IH. lia.
Qed.

Lemma split_colon_length (s : string) :
  length (Py.split_colon s) = S (colons s).
Proof.
  induction s as [|c s IH]; cbn [Py.split_colon colons]; [reflexivity|].
  destruct (Ascii.eqb c ":"); cbn [length Nat.add]; [rewrite IH; reflexivity|].
  destruct (Py.split_colon s) as [|p ps]; cbn [length] in *;
    [discriminate | exact IH].
Qed.

Lemma split_colon_plain (s : string) :
  colons s = 0%nat -> Py.split_colon s = [s].
Proof.
  induction s as [|c s IH]; cbn [Py.split_colon colons]; [reflexivity|].
  destruct (Ascii.eqb c ":"); cbn [Nat.add]; [discriminate|].
  intros H. rewrite (IH H). reflexivity.
Qed.

Lemma split_colon_join (host port_str : string) :
  colons host = 0%nat -> colons port_str = 0%nat ->
  Py.split_colon (host ++ String ":" port_str) = [host; port_str].
Proof.
  intros Hh Hp. induction host as [|c host IH].
  - cbn [append Py.split_colon].
    change (Ascii.eqb ":" ":") with true. cbv iota.
    rewrite (split_colon_plain port_str Hp). reflexivity.
  - cbn [append Py.split_colon]. cbn [colons] in Hh.
    destruct (Ascii.eqb c ":"); [discriminate|].
    cbn [Nat.add] in Hh. rewrite (IH Hh). reflexivity.
Qed.

(** The task of a TCP check whose target was written from a host and a
    port. *)
Lemma task_of_tcp (w : App.World) (name host : string) (port : Z) :
  App.task_of w
    (App.Build_ServiceCheck name "tcp" (host ++ ":" ++ Py.str_of_int port) None)
  = if Py.mem_char ":" host
    then Raise (Exn "ValueError" "too many values to unpack (expected 2)")
    else Ok (App._check_tcp w name host port).
Proof.
  unfold App.task_of. cbn [App.kind App.target App.name].
  change (String.eqb "tcp" "http") with false. cbv iota.
  change (host ++ ":" ++ Py.str_of_int port)
    with (host ++ String ":" (Py.str_of_int port)).
  pose proof (str_of_int_no_colon port) as Hp.
  apply mem_char_colons in Hp.
  destruct (Py.mem_char ":" host) eqn:Hh.
  - assert (L : (3 <= length (Py.split_colon
                                (host ++ String ":" (Py.str_of_int port))))%nat).
    { rewrite split_colon_length, colons_app. cbn [colons].
      change (Ascii.eqb ":" ":") with true. cbv iota.
      assert (colons host <> 0%nat)
        by (intros E; apply mem_char_colons in E; congruence).
      lia. }
    destruct (Py.split_colon (host ++ String ":" (Py.str_of_int port)))
      as [|a [|b [|c l]]]; cbn [length] in L; try lia. reflexivity.
  - apply mem_char_colons in Hh.
    rewrite (split_colon_join host _ Hh Hp), int_of_str_of_int. reflexivity.
Qed.

Lemma make_tasks_checks (env : App.Env) (w : App.World) :
  App.make_tasks w (App._checks env)
  = if Py.mem_char ":" (App.MYSQL_HOST env)
       || Py.mem_char ":" (App.REDIS_HOST env)
    then Raise (Exn "ValueError" "too many values to unpack (expected 2)")
    else
      Ok [ App._check_http w "workbench" (App.WORKBENCH_URL env)
             (Py.or_else (Some (App.WORKBENCH_HEALTH_PATH env)) "/health");
           App._check_http w "tes" (App.TES_URL env)
             (Py.or_else (Some (App.TES_HEALTH_PATH env)) "/health");
           App._check_http w "toolserver" (App.TOOLSERVER_URL env)
             (Py.or_else (Some (App.TOOLSERVER_HEALTH_PATH env)) "/health");
           App._check_http w "model-registry" (App.MODEL_REGISTRY_URL env)
             (Py.or_else (Some (App.MODEL_REGISTRY_HEALTH_PATH env)) "/health");
           App._check_http w "lims-x" (App.LIMSX_URL env)
             (Py.or_else (Some (App.LIMSX_HEALTH_PATH env)) "/health");
           App._check_tcp w "mysql" (App.MYSQL_HOST env) (App.MYSQL_PORT env);
           App._check_tcp w "redis" (App.REDIS_HOST env) (App.REDIS_PORT env) ].
Proof.
  unfold App._checks. cbn [App.make_tasks].
  rewrite !task_of_tcp.
  change (App.task_of w ?c) with (App.task_of w c).
  unfold App.task_of at 1 2 3 4 5. cbn [App.kind App.name App.target App.path].
  change (String.eqb "http" "http") with true. cbv iota.
  destruct (Py.mem_char ":" (App.MYSQL_HOST env)),
    (Py.mem_char ":" (App.REDIS_HOST env)); reflexivity.
Qed.

Lemma task_of_consistent (w : App.World) (c : App.ServiceCheck)
    (e : App.Entry) :
  App.task_of w c = Ok (Some e) -> entry_consistent e.
Proof.
  unfold App.task_of, entry_consistent.
  destruct (String.eqb (App.kind c) "http").
  - unfold App._check_http. intros [= H].
    destruct (App.client_get w _) as [[[[code ctype json|text] t0] t1]|];
      [| |discriminate]; injection H as <-; simpl.
    + destruct ((200 <=? code) && (code <? 300)) eqn:E.
      * apply andb_prop in E as [Hlo Hhi].
        apply Z.leb_le in Hlo. apply Z.ltb_lt in Hhi.
        repeat split; try discriminate; auto.
        intros _. exists code. auto.
      * repeat split; try discriminate.
        intros (k & [= <-] & Hlo & Hhi).
        apply Z.leb_le in Hlo. apply Z.ltb_lt in Hhi.
        rewrite Hlo, Hhi in E. discriminate.
    + repeat split; try discriminate; auto.
      intros (k & [=] & _).
  - destruct (Py.split_colon (App.target c)) as [|host [|port_str [|x l]]];
      try discriminate.
    destruct (Py.int_of_str port_str) as [port|]; [|discriminate].
    unfold App._check_tcp. intros [= H].
    destruct (App.open_connection w host port) as [[[[text|] t0] t1]|];
      [| |discriminate]; injection H as <-; simpl;
      repeat split; try discriminate; auto.
Qed.

Lemma run_checks_entries (env : App.Env) (w : App.World) (h : App.Health) :
  App._run_checks env w = Ok h ->
  Forall entry_consistent (App.health_services h)
  /\ App.ok h = forallb App.entry_ok (App.health_services h).
Proof.
  unfold App._run_checks, App.run_checks_of.
  destruct (App.make_tasks w (App._checks env)) as [tasks|e] eqn:T;
    [|discriminate].
  destruct (App.gather tasks) as [results|] eqn:G; simpl; [|discriminate].
  intros [= <-]. simpl. split; [|reflexivity].
  apply gather_Some in G. subst tasks. apply make_tasks_Ok in T.
  clear -T. remember (App._checks env) as checks eqn:E. clear E.
  revert checks T. induction results as [|e results IH]; intros checks T.
  - constructor.
  - inversion T as [|c t rest ts Ht Hr]; subst.
    constructor; [exact (task_of_consistent w c e Ht) | exact (IH rest Hr)].
Qed.

(** ** The routes of app/main.py *)

(** X11: in every dictionary a probe of [app/main.py] returns, [ok] is
    true exactly when [error] is null, and for an HTTP probe exactly when
    a status code was received and lies in 200-299. *)
Theorem entries_are_consistent (w : App.World) (c : App.ServiceCheck)
    (e : App.Entry) (H : App.task_of w c = Ok (Some e)) :
  (App.entry_ok e = true <-> Endpoints.entry_error e = None)
  /\ match e with
     | App.HttpEntry _ _ ok status_code _ _ _ =>
         (ok = true <-> exists k, status_code = Some k /\ 200 <= k < 300)
         /\ (status_code = None -> ok = false)
     | App.TcpEntry _ _ _ _ _ _ => True
     end.
Proof. exact (task_of_consistent w c e H). Qed.

Lemma entries_are_consistent_witness :
  App.entry_ok
    (App.HttpEntry "workbench" "http://omnibioai:8000/" false (Some 503) 40
       None (Some "HTTP 503")) = true
  <-> Endpoints.entry_error
        (App.HttpEntry "workbench" "http://omnibioai:8000/" false (Some 503) 40
           None (Some "HTTP 503")) = None.
Proof.
  apply (entries_are_consistent degraded_world
           (App.Build_ServiceCheck "workbench" "http" "http://omnibioai:8000"
              (Some "/"))).
  reflexivity.
Defined.

(** X12: the route [/health] returns what [_run_checks] returns, and
    fails when it fails; when it returns, its [ok] is true exactly when
    no entry carries an error, and [/health/services] reports the same
    flag and the same entries. *)
Theorem health_ok_iff_no_error (env : App.Env) (w : App.World) :
  Endpoints.health env w = App._run_checks env w
  /\ (forall h,
        Endpoints.health env w = Ok h ->
        (App.ok h = true
         <-> Forall (fun e => Endpoints.entry_error e = None)
               (App.health_services h))
        /\ Endpoints.health_services env w
           = Ok (App.ok h, App.health_services h))
  /\ (forall e,
        App._run_checks env w = Raise e ->
        Endpoints.health env w = Raise e
        /\ Endpoints.health_services env w = Raise e).
Proof.
  assert (E : Endpoints.health env w = App._run_checks env w).
  { unfold Endpoints.health.
    destruct (App._run_checks env w) as [h|e] eqn:R; [|reflexivity].
    destruct (run_checks_entries env w h R) as [_ Hok].
    destruct h as [o sv ve ts es]. simpl in *. rewrite Hok. reflexivity. }
  split; [exact E|]. split.
  - intros h H. rewrite E in H.
    destruct (run_checks_entries env w h H) as [F Hok].
    split.
    + rewrite Hok, forallb_forall, Forall_forall.
      rewrite Forall_forall in F.
      split; intros A e Hin; apply (F e Hin); apply A; exact Hin.
    + unfold Endpoints.health_services. rewrite H, Hok. reflexivity.
  - intros e R. unfold Endpoints.health, Endpoints.health_services.
    rewrite R. split; reflexivity.
Qed.

Lemma health_ok_iff_no_error_witness :
  (exists h,
      Endpoints.health default_env degraded_world = Ok h
      /\ App.ok h = false
      /\ Endpoints.health_services default_env degraded_world
         = Ok (false, App.health_services h))
  /\ Endpoints.health default_env slow_world
     = Raise (Exn "TimeoutError" EmptyString).
Proof.
  destruct (health_ok_iff_no_error default_env degraded_world)
    as (_ & Hret & _).
  destruct (health_ok_iff_no_error default_env slow_world)
    as (_ & _ & Hfail).
  split.
  - destruct (Endpoints.health default_env degraded_world) as [h|e] eqn:R;
      [|discriminate R].
    exists h. split; [reflexivity|].
    destruct (Hret h eq_refl) as [_ Hs].
    assert (O : App.ok h = false) by (injection R as <-; reflexivity).
    split; [exact O|]. rewrite Hs, O. reflexivity.
  - apply Hfail. reflexivity.
Defined.

(** X13: when [MYSQL_HOST] or [REDIS_HOST] contains a colon, as an IPv6
    address does, splitting the target gives more than two parts, and
    [_run_checks], hence [/health], raises [ValueError] before any probe
    runs, whatever the network would answer. *)
Theorem colon_in_host_fails_every_batch (env : App.Env) (w : App.World)
    (H : Py.mem_char ":" (App.MYSQL_HOST env)
         || Py.mem_char ":" (App.REDIS_HOST env) = true) :
  App._run_checks env w
  = Raise (Exn "ValueError" "too many values to unpack (expected 2)")
  /\ Endpoints.health env w
     = Raise (Exn "ValueError" "too many values to unpack (expected 2)").
Proof.
  assert (R : App._run_checks env w
              = Raise (Exn "ValueError"
                         "too many values to unpack (expected 2)")).
  { unfold App._run_checks, App.run_checks_of.
    rewrite make_tasks_checks, H. reflexivity. }
  split; [exact R|]. unfold Endpoints.health. rewrite R. reflexivity.
Qed.

Lemma colon_in_host_fails_every_batch_witness :
  App._run_checks ipv6_env fast_world
  = Raise (Exn "ValueError" "too many values to unpack (expected 2)").
Proof.
  apply (colon_in_host_fails_every_batch ipv6_env fast_world). reflexivity.
Defined.

(** X14: when neither host contains a colon, the targets that [_checks]
    writes are read back as written: the two TCP probes connect to
    [MYSQL_HOST], [MYSQL_PORT] and [REDIS_HOST], [REDIS_PORT], whatever
    the ports, and [_run_checks] either returns the seven entries in
    order or raises [TimeoutError]; it never raises [ValueError]. *)
Theorem tcp_targets_are_read_back (env : App.Env) (w : App.World)
    (Hm : Py.mem_char ":" (App.MYSQL_HOST env) = false)
    (Hr : Py.mem_char ":" (App.REDIS_HOST env) = false) :
  (exists tasks,
      App.make_tasks w (App._checks env) = Ok tasks
      /\ length tasks = 7%nat
      /\ nth_error tasks 5
         = Some (App._check_tcp w "mysql" (App.MYSQL_HOST env)
                   (App.MYSQL_PORT env))
      /\ nth_error tasks 6
         = Some (App._check_tcp w "redis" (App.REDIS_HOST env)
                   (App.REDIS_PORT env)))
  /\ (App._run_checks env w = Raise (Exn "TimeoutError" EmptyString)
      \/ exists h,
           App._run_checks env w = Ok h
           /\ map App.entry_name (App.health_services h)
              = ["workbench"; "tes"; "toolserver"; "model-registry"; "lims-x";
                 "mysql"; "redis"]).
Proof.
  pose proof (make_tasks_checks env w) as T. rewrite Hm, Hr in T.
  cbn [orb] in T.
  split.
  - eexists. split; [exact T|]. repeat split.
  - destruct (App._run_checks env w) as [h|e] eqn:R.
    + right. exists h. split; [reflexivity|].
      exact (run_checks_of_Ok env w (App._checks env) h R).
    + left. unfold App._run_checks, App.run_checks_of in R.
      rewrite T in R.
      destruct (App.gather _) as [results|]; simpl in R;
        [discriminate | congruence].
Qed.

Lemma tcp_targets_are_read_back_witness :
  exists tasks,
    App.make_tasks degraded_world (App._checks default_env) = Ok tasks
    /\ length tasks = 7%nat
    /\ nth_error tasks 5
       = Some (App._check_tcp degraded_world "mysql" "mysql" 3306)
    /\ nth_error tasks 6
       = Some (App._check_tcp degraded_world "redis" "redis" 6379).
Proof.
  apply (tcp_targets_are_read_back default_env degraded_world); reflexivity.
Defined.

Lemma rstrip_slashes (n : nat) : Py.rstrip_slash (slashes n) = EmptyString.
Proof.
  induction n as [|n IH]; cbn [slashes Py.rstrip_slash]; [reflexivity|].
  rewrite IH. reflexivity.
Qed.

Lemma rstrip_slash_app_slashes (s : string) (n : nat) :
  Py.rstrip_slash (s ++ slashes n) = Py.rstrip_slash s.
Proof.
  induction s as [|c s IH]; cbn [append Py.rstrip_slash].
  - apply rstrip_slashes.
  - rewrite IH. reflexivity.
Qed.

Lemma rstrip_slash_decompose (s : string) :
  exists n, s = Py.rstrip_slash s ++ slashes n.
Proof.
  induction s as [|c s (n & IH)]; cbn [Py.rstrip_slash].
  - exists 0%nat. reflexivity.
  - destruct (Py.rstrip_slash s) as [|d t] eqn:E.
    + destruct (Ascii.eqb c "/") eqn:C.
      * apply Ascii.eqb_eq in C. subst c. exists (S n).
        cbn [append slashes]. rewrite IH at 1. reflexivity.
      * exists n. cbn [append]. rewrite IH at 1. reflexivity.
    + exists n. cbn [append]. rewrite IH at 1. reflexivity.
Qed.

Lemma rstrip_slash_no_trailing (s t : string) :
  Py.rstrip_slash s <> t ++ "/".
Proof.
  revert t. induction s as [|c s IH]; intros t; cbn [Py.rstrip_slash].
  - destruct t; discriminate.
  - destruct (Py.rstrip_slash s) as [|d u] eqn:E.
    + destruct (Ascii.eqb c "/") eqn:C.
      * destruct t; discriminate.
      * destruct t as [|a [|b t']]; cbn [append]; try discriminate.
        intros [= ->]. discriminate C.
    + destruct t as [|a t']; cbn [append]; [discriminate|].
      intros [= _ H]. exact (IH t' H).
Qed.

(** X15: the HTTP probe of [app/main.py] asks for the same URL whether or
    not the base URL is written with trailing slashes: the slashes at the
    end of the base, and only those, are dropped before the path is
    appended. *)
Theorem trailing_slashes_do_not_matter (w : App.World)
    (name base path : string) (n : nat) :
  App._check_http w name (base ++ slashes n) path
  = App._check_http w name base path
  /\ (exists k, base = Py.rstrip_slash base ++ slashes k)
  /\ (forall t, Py.rstrip_slash base <> t ++ "/").
Proof.
  split; [|split].
  - unfold App._check_http. rewrite rstrip_slash_app_slashes. reflexivity.
  - apply rstrip_slash_decompose.
  - apply rstrip_slash_no_trailing.
Qed.
